(** * productiviti: the task store of [src/modules/database.py]

    A shallow embedding of [TaskDB], the SQLite-backed task store, and of
    the [Task] dataclass, followed by the properties of its operations.

    The Python methods hand parameterised SQL text to SQLite, so the
    embedding gives that text its SQLite meaning where the source relies
    on it: the column affinities of the declared types (the declared type
    [date] of [due_date] has NUMERIC affinity), NOT NULL, the AUTOINCREMENT
    rowid, case-insensitive column names, three-valued WHERE clauses and
    the rowid order of a table scan.

    Outside the embedding: integers are unbounded as Python's are (the
    64-bit limit of SQLite's INTEGER class is not modelled), a REAL is kept
    as an exact decimal (binary64 rounding is not modelled), and storage
    failures of the file (disk, permissions) do not occur. *)

From Stdlib Require Import ZArith String Ascii List Bool Lia.
From stdpp Require Import base option list strings gmap sorting pretty.

Open Scope string_scope.
Open Scope Z_scope.

(** ** Python values *)

(** A REAL, as the exact decimal [mant * 10 ^ dexp]. *)
Record decimal := mkDecimal { mant : Z; dexp : Z }.

(** The values callers pass for a field: [None], [bool], [int], [str]. *)
Inductive pyarg :=
| ANone
| ABool (b : bool)
| AInt (z : Z)
| AStr (s : string).

(** The values sqlite3 hands back for a column, plus [bool] (which
    [_create_tasks_list] builds): an INTEGER is an [int], a REAL a [float],
    TEXT a [str], NULL is [None]. *)
Inductive pyval :=
| PNone
| PBool (b : bool)
| PInt (z : Z)
| PStr (s : string)
| PFloat (d : decimal).

(** The two flag fields, annotated [Optional[bool]]; callers also pass the
    ints 0 and 1. *)
Inductive pyflag :=
| FNone
| FBool (b : bool)
| FInt (z : Z).

(** The [Task] dataclass.  Python does not check the annotations, so the
    fields hold whatever values were put in: [V] is [pyarg] for a task a
    caller builds and [pyval] for one built from a row. *)
Record Task {V : Type} := mkTask {
  id : V;
  name : V;
  description : V;
  priority : V;
  created_at : V;
  due_date : V;
  is_complete : pyflag;
  is_hidden : pyflag;
  meta_data : V
}.
Arguments Task : clear implicits.
Arguments mkTask {V}.

(** The exceptions the store's methods can end in. *)
Inductive exn :=
| TypeError
| IndexError
| IntegrityError
| OperationalError.

Inductive Result (A : Type) :=
| Ok (a : A)
| Raise (e : exn).
Arguments Ok {A}.
Arguments Raise {A}.

#[global] Instance Result_ret : MRet Result := fun A a => Ok a.
#[global] Instance Result_bind : MBind Result := fun A B k r =>
  match r with
  | Ok a => k a
  | Raise e => Raise e
  end.
#[global] Instance Result_fmap : FMap Result := fun A B f r =>
  match r with
  | Ok a => Ok (f a)
  | Raise e => Raise e
  end.

(** ** SQLite values and the conversions of the declared column types *)

Inductive sqlval :=
| SNull
| SInt (z : Z)
| SReal (d : decimal)
| SText (s : string).

Definition Zdigit (c : ascii) : option Z :=
  let n := Z.of_N (N_of_ascii c) in
  if (48 <=? n) && (n <=? 57) then Some (n - 48) else None.

(** [sqlite3Isspace]: space, tab, newline, vertical tab, form feed, return. *)
Definition is_space (c : ascii) : bool :=
  let n := Z.of_N (N_of_ascii c) in
  (n =? 32) || ((9 <=? n) && (n <=? 13)).

Fixpoint skip_spaces (l : list ascii) : list ascii :=
  match l with
  | c :: r => if is_space c then skip_spaces r else l
  | [] => []
  end.

(** Reads a run of digits onto [acc]; returns the number, how many digits
    were read and the rest. *)
Fixpoint take_digits (l : list ascii) (acc : Z) (n : Z) : Z * Z * list ascii :=
  match l with
  | c :: r =>
      match Zdigit c with
      | Some d => take_digits r (acc * 10 + d) (n + 1)
      | None => (acc, n, l)
      end
  | [] => (acc, n, [])
  end.

Definition take_sign (l : list ascii) : bool * list ascii :=
  match l with
  | "-"%char :: r => (true, r)
  | "+"%char :: r => (false, r)
  | _ => (false, l)
  end.

Definition signed (neg : bool) (z : Z) : Z := if neg then - z else z.

(** The text SQLite accepts as a number when it applies NUMERIC affinity
    ([sqlite3AtoF]): spaces, a sign, digits with an optional point, an
    optional exponent with at least one digit, spaces, and nothing else;
    at least one digit in the significand. *)
Definition numeric_literal (s : string) : option decimal :=
  match skip_spaces (list_ascii_of_string s) with
  | [] => None
  | z0 =>
      let '(neg, z1) := take_sign z0 in
      let '(m1, n1, z2) := take_digits z1 0 0 in
      let '(m2, n2, z3) :=
        match z2 with
        | "."%char :: r => take_digits r m1 0
        | _ => (m1, 0, z2)
        end in
      let '(e, evalid, z4) :=
        match z3 with
        | c :: r =>
            if (Ascii.eqb c "e" || Ascii.eqb c "E")%bool then
              let '(eneg, r1) := take_sign r in
              let '(ev, en, r2) := take_digits r1 0 0 in
              (signed eneg ev, 0 <? en, r2)
            else (0, true, z3)
        | [] => (0, true, z3)
        end in
      match skip_spaces z4 with
      | [] =>
          if (0 <? n1 + n2) && evalid
          then Some (mkDecimal (signed neg m2) (e - n2))
          else None
      | _ :: _ => None
      end
  end.

(** The integer a decimal denotes, when it denotes one. *)
Definition decimal_int (d : decimal) : option Z :=
  if 0 <=? dexp d then Some (mant d * 10 ^ dexp d)
  else
    let p := 10 ^ (- dexp d) in
    if mant d mod p =? 0 then Some (mant d / p) else None.

(** A number in a column of numeric affinity is an INTEGER when it is
    integer-valued and a REAL otherwise. *)
Definition numeric_value (d : decimal) : sqlval :=
  match decimal_int d with
  | Some z => SInt z
  | None => SReal d
  end.

Inductive affinity := AffInteger | AffNumeric | AffText.

(** What a column of the given affinity stores for a bound parameter.
    sqlite3 binds [None] as NULL, a [bool] or [int] as an INTEGER and a
    [str] as TEXT; INTEGER and NUMERIC affinity turn text that is a
    number into that number, TEXT affinity turns a number into text. *)
Definition column_value (aff : affinity) (a : pyarg) : sqlval :=
  match a with
  | ANone => SNull
  | ABool b =>
      match aff with
      | AffText => SText (if b then "1" else "0")
      | _ => SInt (if b then 1 else 0)
      end
  | AInt z =>
      match aff with
      | AffText => SText (pretty z)
      | _ => SInt z
      end
  | AStr s =>
      match aff with
      | AffText => SText s
      | _ =>
          match numeric_literal s with
          | Some d => numeric_value d
          | None => SText s
          end
      end
  end.

(** ** The [tasks] table *)

(** The columns that [_init_db] declares. *)
Inductive column :=
| Cid
| Cname
| Cdescription
| Cpriority
| Ccreated_at
| Cdue_date
| Cis_complete
| Cis_hidden
| Cmeta_data.

#[global] Instance column_eq_dec : EqDecision column.
Proof. solve_decision. Defined.

Definition column_name (c : column) : string :=
  match c with
  | Cid => "id"
  | Cname => "name"
  | Cdescription => "description"
  | Cpriority => "priority"
  | Ccreated_at => "created_at"
  | Cdue_date => "due_date"
  | Cis_complete => "is_complete"
  | Cis_hidden => "is_hidden"
  | Cmeta_data => "meta_data"
  end.

Definition all_columns : list column :=
  [Cid; Cname; Cdescription; Cpriority; Ccreated_at; Cdue_date;
   Cis_complete; Cis_hidden; Cmeta_data].

(** Affinity of the declared types: [integer] is INTEGER, [text] is TEXT,
    and [date], which contains none of INT, CHAR, CLOB, TEXT, BLOB, REAL,
    FLOA, DOUB, is NUMERIC. *)
Definition column_affinity (c : column) : affinity :=
  match c with
  | Cid | Cpriority | Cis_complete | Cis_hidden => AffInteger
  | Cdue_date => AffNumeric
  | Cname | Cdescription | Ccreated_at | Cmeta_data => AffText
  end.

(** Every column but [meta_data] is declared [not null]; [id] is the rowid. *)
Definition column_not_null (c : column) : bool :=
  match c with
  | Cid | Cmeta_data => false
  | _ => true
  end.

(** The [default] clauses; [current_timestamp] is the engine's clock. *)
Definition schema_default (current_timestamp : string) (c : column) : sqlval :=
  match c with
  | Ccreated_at => SText current_timestamp
  | Cdue_date | Cis_complete | Cis_hidden => SInt 0
  | _ => SNull
  end.

Definition lower_ascii (c : ascii) : ascii :=
  let n := N_of_ascii c in
  if ((65 <=? n) && (n <=? 90))%N then ascii_of_N (n + 32) else c.

Fixpoint lower (s : string) : string :=
  match s with
  | EmptyString => EmptyString
  | String c r => String (lower_ascii c) (lower r)
  end.

(** SQLite matches column names without regard to ASCII case, and takes
    [rowid], [oid] and [_rowid_] for the integer primary key when no
    column bears that name. *)
Definition resolve_column (k : string) : option column :=
  let k := lower k in
  match find (fun c => String.eqb (column_name c) k) all_columns with
  | Some c => Some c
  | None =>
      if String.eqb k "rowid" || String.eqb k "oid" || String.eqb k "_rowid_"
      then Some Cid else None
  end.

(** A row without its rowid. *)
Record StoredRow := mkRow {
  r_name : sqlval;
  r_description : sqlval;
  r_priority : sqlval;
  r_created_at : sqlval;
  r_due_date : sqlval;
  r_is_complete : sqlval;
  r_is_hidden : sqlval;
  r_meta_data : sqlval
}.

(** The database file: the table, keyed by rowid, and the table's entry in
    [sqlite_sequence] (the largest rowid an insert has used, 0 at first). *)
Record TaskDB := mkDB {
  tasks : gmap Z StoredRow;
  sqlite_sequence : Z
}.

(** [_init_db] on a fresh file. *)
Definition _init_db : TaskDB := mkDB ∅ 0.

Definition get_col (c : column) (rowid : Z) (r : StoredRow) : sqlval :=
  match c with
  | Cid => SInt rowid
  | Cname => r_name r
  | Cdescription => r_description r
  | Cpriority => r_priority r
  | Ccreated_at => r_created_at r
  | Cdue_date => r_due_date r
  | Cis_complete => r_is_complete r
  | Cis_hidden => r_is_hidden r
  | Cmeta_data => r_meta_data r
  end.

Definition set_col (c : column) (v : sqlval) (r : StoredRow) : StoredRow :=
  match c with
  | Cid => r
  | Cname => mkRow v (r_description r) (r_priority r) (r_created_at r)
               (r_due_date r) (r_is_complete r) (r_is_hidden r) (r_meta_data r)
  | Cdescription => mkRow (r_name r) v (r_priority r) (r_created_at r)
               (r_due_date r) (r_is_complete r) (r_is_hidden r) (r_meta_data r)
  | Cpriority => mkRow (r_name r) (r_description r) v (r_created_at r)
               (r_due_date r) (r_is_complete r) (r_is_hidden r) (r_meta_data r)
  | Ccreated_at => mkRow (r_name r) (r_description r) (r_priority r) v
               (r_due_date r) (r_is_complete r) (r_is_hidden r) (r_meta_data r)
  | Cdue_date => mkRow (r_name r) (r_description r) (r_priority r)
               (r_created_at r) v (r_is_complete r) (r_is_hidden r) (r_meta_data r)
  | Cis_complete => mkRow (r_name r) (r_description r) (r_priority r)
               (r_created_at r) (r_due_date r) v (r_is_hidden r) (r_meta_data r)
  | Cis_hidden => mkRow (r_name r) (r_description r) (r_priority r)
               (r_created_at r) (r_due_date r) (r_is_complete r) v (r_meta_data r)
  | Cmeta_data => mkRow (r_name r) (r_description r) (r_priority r)
               (r_created_at r) (r_due_date r) (r_is_complete r) (r_is_hidden r) v
  end.

Definition is_null (v : sqlval) : bool :=
  match v with SNull => true | _ => false end.

(** The NOT NULL constraints of a row. *)
Definition not_null_ok (r : StoredRow) : bool :=
  forallb (fun c => negb (column_not_null c && is_null (get_col c 0 r)))
          all_columns.

Definition rowid_le (x y : Z * StoredRow) : Prop := x.1 <= y.1.

#[global] Instance rowid_le_dec x y : Decision (rowid_le x y).
Proof. unfold rowid_le. apply _. Defined.

(** A scan of the table yields its rows in rowid order. *)
Definition table_scan (db : TaskDB) : list (Z * StoredRow) :=
  merge_sort rowid_le (map_to_list (tasks db)).

(** The largest rowid in the table, if it has a row. *)
Definition max_rowid (db : TaskDB) : option Z :=
  map_fold (fun k _ acc =>
              Some (match acc with Some m => Z.max k m | None => k end))
           None (tasks db).

(** AUTOINCREMENT: one more than the largest rowid the table holds or has
    ever been given by an insert; 1 for a table never written. *)
Definition next_rowid (db : TaskDB) : Z :=
  Z.max (sqlite_sequence db + 1)
        (match max_rowid db with Some m => m + 1 | None => 1 end).

(** ** The statements the store issues *)

Fixpoint resolve_all (l : list (string * pyarg)) : Result (list (column * pyarg)) :=
  match l with
  | [] => Ok []
  | (k, a) :: r =>
      match resolve_column k with
      | None => Raise OperationalError
      | Some c => r' ← resolve_all r; mret ((c, a) :: r')
      end
  end.

(** The value an [insert] gives a column: the parameter bound for it when
    the statement names the column, the column's default when it does not. *)
Definition insert_value (defaults : column -> sqlval)
    (cs : list (column * pyarg)) (c : column) : sqlval :=
  match find (fun p => bool_decide (p.1 = c)) cs with
  | Some (_, a) => column_value (column_affinity c) a
  | None => defaults c
  end.

(** [insert into tasks(c1, ..., cn) values (?, ..., ?)].  A name that is
    no column fails the statement; a NULL rowid is generated, a rowid in
    use or not an integer, and a NULL in a [not null] column, violate the
    table's constraints. *)
Definition exec_insert (defaults : column -> sqlval)
    (cols : list (string * pyarg)) (db : TaskDB) : Result TaskDB :=
  cs ← resolve_all cols;
  let v := insert_value defaults cs in
  let row := mkRow (v Cname) (v Cdescription) (v Cpriority) (v Ccreated_at)
                   (v Cdue_date) (v Cis_complete) (v Cis_hidden) (v Cmeta_data) in
  rowid ← match v Cid with
          | SNull => Ok (next_rowid db)
          | SInt z => if tasks db !! z is Some _ then Raise IntegrityError else Ok z
          | _ => Raise IntegrityError
          end;
  if not_null_ok row
  then Ok (mkDB (<[rowid := row]> (tasks db)) (Z.max (sqlite_sequence db) rowid))
  else Raise IntegrityError.

(** One assignment of a [set] clause, on the values the row is to have:
    its rowid and its columns. *)
Definition apply_set (st : sqlval * StoredRow) (ca : column * pyarg)
    : sqlval * StoredRow :=
  let v := column_value (column_affinity ca.1) ca.2 in
  match ca.1 with
  | Cid => (v, st.2)
  | c => (st.1, set_col c v st.2)
  end.

(** The assignments in the order written: of two to one column the later
    stands. *)
Definition apply_sets (st : sqlval * StoredRow) (cs : list (column * pyarg))
    : sqlval * StoredRow :=
  fold_left apply_set cs st.

(** Whether the row has NULL in a [not null] column that was assigned. *)
Definition null_assigned (cs : list (column * pyarg)) (r : StoredRow) : bool :=
  existsb (fun ca => column_not_null ca.1 && is_null (get_col ca.1 0 r)) cs.

(** [UPDATE tasks SET c1 = ?, ..., cn = ? WHERE id = ?]: the [set] clause
    with the parameter bound to each name, and the parameter of the
    [where] clause. *)
Record UpdateStmt := mkUpdate {
  set_clause : list (string * pyarg);
  where_id : Z
}.

(** A name that is no column fails the statement whether or not a row
    matches.  With no row of that rowid nothing changes; otherwise the
    row is rewritten, under the constraints of the table: the rowid must
    be given an integer, and not that of another row, and a [not null]
    column that is assigned must not be given NULL. *)
Definition exec_update (st : UpdateStmt) (db : TaskDB) : Result TaskDB :=
  cs ← resolve_all (set_clause st);
  match tasks db !! where_id st with
  | None => Ok db
  | Some r =>
      let new := apply_sets (SInt (where_id st), r) cs in
      match new.1 with
      | SInt rowid =>
          if null_assigned cs new.2 then Raise IntegrityError
          else if bool_decide (rowid ≠ where_id st) &&
                  bool_decide (is_Some (tasks db !! rowid))
          then Raise IntegrityError
          else Ok (mkDB (<[rowid := new.2]> (delete (where_id st) (tasks db)))
                        (sqlite_sequence db))
      | _ => Raise IntegrityError
      end
  end.

(** [with self._get_connection() as conn]: the statement's effect is
    committed when the block ends normally and the file is as it was when
    the block raises. *)
Definition with_connection (db : TaskDB) (r : Result TaskDB)
    : Result unit * TaskDB :=
  match r with
  | Ok db' => (Ok (), db')
  | Raise e => (Raise e, db)
  end.

(** ** The methods that write *)

(** The two clocks: [datetime.now().strftime("%Y-%m-%d %H:%M:%S")] and
    SQLite's [current_timestamp]. *)
Record Clock := mkClock {
  local_now : string;
  current_timestamp : string
}.

(** Python's truth test, as [or] applies it. *)
Definition py_truthy (a : pyarg) : bool :=
  match a with
  | ANone => false
  | ABool b => b
  | AInt z => negb (z =? 0)
  | AStr s => negb (String.eqb s "")
  end.

(** [int(x)] on a flag. *)
Definition py_int (f : pyflag) : Result Z :=
  match f with
  | FNone => Raise TypeError
  | FBool b => Ok (if b then 1 else 0)
  | FInt z => Ok z
  end.

(** The column list and the [data] tuple of [add_task]. *)
Definition add_task_params (clock : Clock) (task : Task pyarg)
    : Result (list (string * pyarg)) :=
  let created :=
    if py_truthy (created_at task) then created_at task
    else AStr (local_now clock) in
  c ← py_int (is_complete task);
  h ← py_int (is_hidden task);
  mret [("name", name task);
        ("description", description task);
        ("priority", priority task);
        ("created_at", created);
        ("due_date", due_date task);
        ("is_complete", AInt c);
        ("is_hidden", AInt h);
        ("meta_data", meta_data task)].

(** [add_task], over a table whose columns have the given defaults. *)
Definition add_task_with (defaults : column -> sqlval) (clock : Clock)
    (task : Task pyarg) (db : TaskDB) : Result unit * TaskDB :=
  with_connection db
    (data ← add_task_params clock task; exec_insert defaults data db).

Definition add_task (clock : Clock) (task : Task pyarg) (db : TaskDB)
    : Result unit * TaskDB :=
  add_task_with (schema_default (current_timestamp clock)) clock task db.

(** [fields.pop("id")].  A field set is what [**fields] collects, in the
    order given: the names are distinct, so the one entry of that exact
    name goes, and as keyword names they are identifiers, which the
    statement takes for column names. *)
Definition pop_id (fields : list (string * pyarg)) : list (string * pyarg) :=
  filter (fun kv => kv.1 ≠ "id") fields.

(** The statement [edit_task] goes on to execute, if it does. *)
Definition edit_task_statement (task_id : Z) (fields : list (string * pyarg))
    : option UpdateStmt :=
  match pop_id fields with
  | [] => None
  | fields' => Some (mkUpdate fields' task_id)
  end.

Definition edit_task (task_id : Z) (fields : list (string * pyarg))
    (db : TaskDB) : Result unit * TaskDB :=
  match edit_task_statement task_id fields with
  | None => (Ok (), db)
  | Some st => with_connection db (exec_update st db)
  end.

(** [update tasks SET is_hidden = 1 where id = ?]. *)
Definition remove_task_statement (task_id : Z) : UpdateStmt :=
  mkUpdate [("is_hidden", AInt 1)] task_id.

Definition remove_task (task_id : Z) (db : TaskDB) : Result unit * TaskDB :=
  with_connection db (exec_update (remove_task_statement task_id) db).

(** ** The methods that read *)

(** A [sqlite3.Row]: the result columns by name, in order. *)
Definition sqlite_row := list (string * sqlval).

(** [row[key]]; a name that is no result column raises [IndexError]. *)
Definition row_get (row : sqlite_row) (key : string) : Result sqlval :=
  match find (fun p => String.eqb p.1 key) row with
  | Some (_, v) => Ok v
  | None => Raise IndexError
  end.

Definition py_of_sql (v : sqlval) : pyval :=
  match v with
  | SNull => PNone
  | SInt z => PInt z
  | SReal d => PFloat d
  | SText s => PStr s
  end.

(** [bool(x)] on a column value. *)
Definition py_bool (v : sqlval) : bool :=
  match v with
  | SNull => false
  | SInt z => negb (z =? 0)
  | SReal d => negb (mant d =? 0)
  | SText s => negb (String.eqb s "")
  end.

(** The [Task(...)] call of [_create_tasks_list]; its arguments are
    evaluated in the order written. *)
Definition task_of_row (row : sqlite_row) : Result (Task pyval) :=
  i ← row_get row "id";
  n ← row_get row "name";
  d ← row_get row "description";
  p ← row_get row "priority";
  c ← row_get row "created_at";
  u ← row_get row "due_date";
  k ← row_get row "is_complete";
  h ← row_get row "is_hidden";
  m ← row_get row "meta_data";
  mret (mkTask (py_of_sql i) (py_of_sql n) (py_of_sql d) (py_of_sql p)
               (py_of_sql c) (py_of_sql u) (FBool (py_bool k))
               (FBool (py_bool h)) (py_of_sql m)).

Fixpoint _create_tasks_list (rows : list sqlite_row) : Result (list (Task pyval)) :=
  match rows with
  | [] => Ok []
  | row :: rest =>
      t ← task_of_row row;
      ts ← _create_tasks_list rest;
      mret (t :: ts)
  end.

(** The result row of [select *] for a stored row. *)
Definition select_star (p : Z * StoredRow) : sqlite_row :=
  map (fun c => (column_name c, get_col c p.1 p.2)) all_columns.

(** Whether a decimal equals an integer. *)
Definition decimal_eq_int (d : decimal) (k : Z) : bool :=
  match decimal_int d with
  | Some z => z =? k
  | None => false
  end.

(** [column = k] for an integer literal [k] and a column of numeric
    affinity: NULL when the value is NULL, a comparison of numbers when it
    is a number, false when it is text. *)
Definition sql_eq_int (v : sqlval) (k : Z) : option bool :=
  match v with
  | SNull => None
  | SInt z => Some (z =? k)
  | SReal d => Some (decimal_eq_int d k)
  | SText _ => Some false
  end.

(** Three-valued [and]. *)
Definition sql_and (a b : option bool) : option bool :=
  match a, b with
  | Some false, _ | _, Some false => Some false
  | Some true, Some true => Some true
  | _, _ => None
  end.

(** A [where] clause keeps the rows on which it is true. *)
Definition where_true (o : option bool) : bool :=
  match o with
  | Some true => true
  | _ => false
  end.

Definition select_where (cond : StoredRow -> option bool) (db : TaskDB)
    : list sqlite_row :=
  map select_star (filter (fun p => where_true (cond p.2) = true) (table_scan db)).

(** [where is_hidden = 0 and is_complete = 0]. *)
Definition incomplete_cond (r : StoredRow) : option bool :=
  sql_and (sql_eq_int (r_is_hidden r) 0) (sql_eq_int (r_is_complete r) 0).

(** [where is_hidden = 0 and is_complete = 1]. *)
Definition complete_cond (r : StoredRow) : option bool :=
  sql_and (sql_eq_int (r_is_hidden r) 0) (sql_eq_int (r_is_complete r) 1).

(** [where due_date = 0]. *)
Definition undue_cond (r : StoredRow) : option bool :=
  sql_eq_int (r_due_date r) 0.

Definition get_all_incomplete_tasks (db : TaskDB) : Result (list (Task pyval)) :=
  _create_tasks_list (select_where incomplete_cond db).

Definition get_all_complete_tasks (db : TaskDB) : Result (list (Task pyval)) :=
  _create_tasks_list (select_where complete_cond db).

Definition get_all_undue_tasks (db : TaskDB) : Result (list (Task pyval)) :=
  _create_tasks_list (select_where undue_cond db).

(** [select * from tasks where id = ?] and [fetchone]: the row of that
    rowid, if the table has one. *)
Definition get_task_by_id (task_id : Z) (db : TaskDB)
    : Result (option (Task pyval)) :=
  match tasks db !! task_id with
  | None => Ok None
  | Some r =>
      ts ← _create_tasks_list [select_star (task_id, r)];
      match ts with
      | t :: _ => Ok (Some t)
      | [] => Raise IndexError
      end
  end.

(** [select id, name, julianday(due_date) - julianday('now') as diff_days
    from tasks where id = ?].  The date arithmetic is SQLite's, on
    floating point numbers and the engine's clock; [diff_days] stands for
    it, as a function of the stored [due_date]. *)
Definition select_days (diff_days : sqlval -> sqlval) (task_id : Z)
    (db : TaskDB) : list sqlite_row :=
  match tasks db !! task_id with
  | None => []
  | Some r => [[("id", SInt task_id);
                ("name", r_name r);
                ("diff_days", diff_days (r_due_date r))]]
  end.

Definition get_days_until_due (diff_days : sqlval -> sqlval) (task_id : Z)
    (db : TaskDB) : Result (list (Task pyval)) :=
  _create_tasks_list (select_days diff_days task_id db).

(** ** Notions the properties are stated with *)

(** The task [_create_tasks_list] builds from a full row of the table. *)
Definition stored_task (p : Z * StoredRow) : Task pyval :=
  mkTask (PInt p.1)
         (py_of_sql (r_name p.2))
         (py_of_sql (r_description p.2))
         (py_of_sql (r_priority p.2))
         (py_of_sql (r_created_at p.2))
         (py_of_sql (r_due_date p.2))
         (FBool (py_bool (r_is_complete p.2)))
         (FBool (py_bool (r_is_hidden p.2)))
         (py_of_sql (r_meta_data p.2)).

(** All the tasks of the store, hidden ones included. *)
Definition all_tasks (db : TaskDB) : list (Task pyval) :=
  stored_task <$> table_scan db.


(** The ids of the tasks of the store. *)
Definition task_ids (db : TaskDB) : list pyval :=
  (fun t : Task pyval => id t) <$> all_tasks db.

(** A task is visible when it is not hidden. *)
Definition visible (t : Task pyval) : Prop := is_hidden t = FBool false.



Definition is_flag_column (c : column) : bool :=
  match c with
  | Cis_complete | Cis_hidden => true
  | _ => false
  end.




Definition is_bit (v : sqlval) : bool :=
  match v with
  | SInt z => (z =? 0) || (z =? 1)
  | _ => false
  end.















(** A date as the front end writes it: [YYYY-MM-DD]. *)
Definition is_digit (c : ascii) : bool :=
  match Zdigit c with Some _ => true | None => false end.

Definition is_dash (c : ascii) : bool := Ascii.eqb c "-".

Definition is_iso_date (s : string) : bool :=
  match list_ascii_of_string s with
  | [y1; y2; y3; y4; s1; m1; m2; s2; d1; d2] =>
      is_digit y1 && is_digit y2 && is_digit y3 && is_digit y4 && is_dash s1
      && is_digit m1 && is_digit m2 && is_dash s2 && is_digit d1 && is_digit d2
  | _ => false
  end.

(** ** Sample data *)

Definition sample_clock : Clock :=
  mkClock "2024-05-01 10:00:00" "2024-05-01 08:00:00".

Definition undated_task : Task pyarg :=
  mkTask ANone (AStr "Water the plants") (AStr "") (AInt 0) ANone (AStr "0")
         (FBool false) (FBool false) (AStr "{}").

Definition dated_task : Task pyarg :=
  mkTask ANone (AStr "File the report") (AStr "quarterly") (AInt 3)
         (AStr "2024-04-30 09:00:00") (AStr "2099-01-01")
         (FBool false) (FBool false) ANone.

Definition due_today_task : Task pyarg :=
  mkTask ANone (AStr "Call the bank") (AStr "") (AInt 1) ANone
         (AStr "2024-05-01") (FBool false) (FBool false) (AStr "{}").

Definition one_task_store : TaskDB :=
  (add_task sample_clock undated_task _init_db).2.

Definition two_task_store : TaskDB :=
  (add_task sample_clock dated_task one_task_store).2.

Definition due_today_store : TaskDB :=
  (add_task sample_clock due_today_task _init_db).2.


(** A task as it is once hidden: [is_hidden] true, the rest as it was. *)
Definition hidden (t : Task pyval) : Task pyval :=
  mkTask (id t) (name t) (description t) (priority t) (created_at t)
         (due_date t) (is_complete t) (FBool true) (meta_data t).

(** The row [add_task] inserts for a task whose flags convert to the
    integers [c] and [h]. *)
Definition new_row (clock : Clock) (T : Task pyarg) (c h : Z) : StoredRow :=
  mkRow (column_value AffText (name T))
        (column_value AffText (description T))
        (column_value AffInteger (priority T))
        (column_value AffText
           (if py_truthy (created_at T) then created_at T
            else AStr (local_now clock)))
        (column_value AffNumeric (due_date T))
        (SInt c) (SInt h)
        (column_value AffText (meta_data T)).

Definition one_done_store : TaskDB :=
  (edit_task 1 [("is_complete", ABool true)] two_task_store).2.


Definition renumbered_store : TaskDB :=
  (edit_task 1 [("ID", AInt 5)] one_task_store).2.

(** ** Every state of the store *)

(** What [add_task], [edit_task] and [remove_task] make of a fresh file,
    whatever they are given. *)
Inductive store_state : TaskDB -> Prop :=
| state_init : store_state _init_db
| state_add clock task db :
    store_state db -> store_state (add_task clock task db).2
| state_edit task_id fields db :
    store_state db -> store_state (edit_task task_id fields db).2
| state_remove task_id db :
    store_state db -> store_state (remove_task task_id db).2.

Definition is_text (v : sqlval) : bool :=
  match v with SText _ => true | _ => false end.

(** A row as the declared types and constraints shape it: text in the
    three [text not null] columns, text or NULL in [meta_data], and no
    NULL in the other columns. *)
Definition row_shaped (r : StoredRow) : bool :=
  is_text (r_name r) && is_text (r_description r) && is_text (r_created_at r)
  && negb (is_null (r_priority r)) && negb (is_null (r_due_date r))
  && negb (is_null (r_is_complete r)) && negb (is_null (r_is_hidden r))
  && (is_text (r_meta_data r) || is_null (r_meta_data r)).

Definition is_pystr (v : pyval) : bool :=
  match v with PStr _ => true | _ => false end.

Definition is_pynone (v : pyval) : bool :=
  match v with PNone => true | _ => false end.



(** ** The front end: [src/main.py] *)


(** The field set that the callback of [action_edit_task] passes on:
    the dict of the form, in the order it is built. *)
Definition fields_of_form (form_name form_description : string)
    (form_priority : Z) (form_due_date : string) : list (string * pyarg) :=
  [("name", AStr form_name); ("description", AStr form_description);
   ("priority", AInt form_priority); ("due_date", AStr form_due_date)].

(** Python's truth test on a flag of a task. *)
Definition flag_truthy (f : pyflag) : bool :=
  match f with
  | FNone => false
  | FBool b => b
  | FInt z => negb (z =? 0)
  end.

(** The field set of [action_toggle_complete]:
    [is_complete=int(not task.is_complete)]. *)
Definition toggle_fields (task : Task pyval) : list (string * pyarg) :=
  [("is_complete", AInt (if negb (flag_truthy (is_complete task)) then 1 else 0))].

(** Python's truth test on a value read from a row. *)
Definition val_truthy (v : pyval) : bool :=
  match v with
  | PNone => false
  | PBool b => b
  | PInt z => negb (z =? 0)
  | PStr s => negb (String.eqb s "")
  | PFloat d => negb (mant d =? 0)
  end.

(** [not due_date or due_date == "0"]. *)
Definition due_is_unset (due_date : pyval) : bool :=
  negb (val_truthy due_date)
  || match due_date with PStr s => String.eqb s "0" | _ => false end.

(** What the [try] block of [_due_markup] and [_due_plain] gets from
    [datetime] for a date text: the days from today to the date, and the
    date as [strftime] prints it with ['%b %d'] and with ['%b %d, %Y'].
    The parsing, the clock and the month names are the library's and the
    locale's: they stand as the parameter [strptime], [None] being the
    [ValueError] the block catches. *)
Record DateView := mkDateView {
  dv_days : Z;
  dv_month_day : string;
  dv_month_day_year : string
}.

(** [_due_markup].  A value that is not a [str] makes [datetime.strptime]
    raise [TypeError], which the function does not catch. *)
Definition _due_markup (strptime : string -> option DateView)
    (due_date : pyval) : Result string :=
  if due_is_unset due_date then Ok "[dim]–[/dim]"
  else
    match due_date with
    | PStr s =>
        match strptime s with
        | Some dt =>
            let diff := dv_days dt in
            if diff <? 0
            then Ok ("[red]Overdue (" +:+ pretty (Z.abs diff) +:+ "d)[/red]")
            else if diff =? 0 then Ok "[yellow]Today[/yellow]"
            else if diff =? 1 then Ok "[yellow]Tomorrow[/yellow]"
            else Ok (dv_month_day dt +:+ " (" +:+ pretty diff +:+ "d)")
        | None => Ok s
        end
    | _ => Raise TypeError
    end.

(** [_due_plain]. *)
Definition _due_plain (strptime : string -> option DateView)
    (due_date : pyval) : Result string :=
  if due_is_unset due_date then Ok "No due date"
  else
    match due_date with
    | PStr s =>
        match strptime s with
        | Some dt =>
            let diff := dv_days dt in
            if diff <? 0
            then Ok ("Overdue by " +:+ pretty (Z.abs diff) +:+ " day(s)")
            else if diff =? 0 then Ok "Due today"
            else if diff =? 1 then Ok "Due tomorrow"
            else Ok (dv_month_day_year dt +:+ "  (+" +:+ pretty diff +:+ "d)")
        | None => Ok s
        end
    | _ => Raise TypeError
    end.

(** The text the edit form starts with for the due date of a task:
    [task.due_date if task.due_date and task.due_date != "0" else ""]. *)
Definition form_due_date (due_date : pyval) : pyval :=
  if val_truthy due_date
     && negb (match due_date with PStr s => String.eqb s "0" | _ => false end)
  then due_date else PStr "".

(** ** More sample data *)

Definition sample_strptime (s : string) : option DateView :=
  if String.eqb s "2024-05-03" then Some (mkDateView 2 "May 03" "May 03, 2024")
  else if String.eqb s "2024-04-30" then Some (mkDateView (-1) "Apr 30" "Apr 30, 2024")
  else None.

(** * Properties *)

(** ** Conversions *)

Example numeric_literal_samples :
  numeric_literal "0" = Some (mkDecimal 0 0) /\
  numeric_literal " -12.50 " = Some (mkDecimal (-1250) (-2)) /\
  numeric_literal "1e2" = Some (mkDecimal 1 2) /\
  numeric_literal ".5" = Some (mkDecimal 5 (-1)) /\
  numeric_literal "5." = Some (mkDecimal 5 0) /\
  numeric_literal "2099-01-01" = None /\
  numeric_literal "1e" = None /\
  numeric_literal "." = None /\
  numeric_literal "" = None /\
  numeric_literal "0x10" = None.
Proof. repeat split; reflexivity. Qed.

Example column_value_samples :
  column_value AffNumeric (AStr "0") = SInt 0 /\
  column_value AffNumeric (AStr "0.0") = SInt 0 /\
  column_value AffNumeric (AStr "1.5") = SReal (mkDecimal 15 (-1)) /\
  column_value AffNumeric (AStr "2099-01-01") = SText "2099-01-01" /\
  column_value AffText (AInt (-42)) = SText "-42" /\
  column_value AffText (AStr "0") = SText "0".
Proof. repeat split; vm_compute; reflexivity. Qed.

(** ** Rows and the tasks built from them *)

Lemma task_of_select_star p : task_of_row (select_star p) = Ok (stored_task p).
Proof. destruct p as [i r]. reflexivity. Qed.

Lemma create_tasks_list_select_star (l : list (Z * StoredRow)) :
  _create_tasks_list (map select_star l) = Ok (stored_task <$> l).
Proof.
  induction l as [|p l IH]; [reflexivity|].
  cbn [map _create_tasks_list]. rewrite task_of_select_star, IH. reflexivity.
Qed.

Lemma select_where_tasks cond db :
  _create_tasks_list (select_where cond db)
  = Ok (stored_task <$>
          filter (fun p => where_true (cond p.2) = true) (table_scan db)).
Proof. apply create_tasks_list_select_star. Qed.

(** Unfolds the three listings to the rows their [where] clause keeps. *)
Ltac listings :=
  unfold get_all_incomplete_tasks, get_all_complete_tasks, get_all_undue_tasks;
  rewrite ?select_where_tasks.

Lemma elem_of_table_scan db i r :
  (i, r) ∈ table_scan db ↔ tasks db !! i = Some r.
Proof.
  unfold table_scan. rewrite merge_sort_Permutation.
  apply elem_of_map_to_list.
Qed.

Lemma stored_task_inj p q : stored_task p = stored_task q → p.1 = q.1.
Proof. unfold stored_task. intros H. by injection H. Qed.

Lemma elem_of_all_tasks db t :
  t ∈ all_tasks db ↔ ∃ i r, tasks db !! i = Some r ∧ t = stored_task (i, r).
Proof.
  unfold all_tasks. rewrite list_elem_of_fmap. split.
  - intros ([i r] & -> & Hin). exists i, r. by rewrite <- elem_of_table_scan.
  - intros (i & r & Hl & ->). exists (i, r). by rewrite elem_of_table_scan.
Qed.

Lemma elem_of_selected cond db t :
  t ∈ stored_task <$>
        filter (fun p => where_true (cond p.2) = true) (table_scan db)
  ↔ ∃ i r, tasks db !! i = Some r ∧ t = stored_task (i, r)
           ∧ cond r = Some true.
Proof.
  rewrite list_elem_of_fmap. split.
  - intros ([i r] & -> & Hin). apply list_elem_of_filter in Hin as [Hc Hin].
    exists i, r. rewrite <- elem_of_table_scan. simpl in Hc.
    repeat split; [done|]. by destruct (cond r) as [[]|].
  - intros (i & r & Hl & -> & Hc). exists (i, r). split; [done|].
    apply list_elem_of_filter. rewrite elem_of_table_scan. simpl.
    by rewrite Hc.
Qed.

(** ** Reading one task *)

Lemma get_task_by_id_stored task_id db r :
  tasks db !! task_id = Some r →
  get_task_by_id task_id db = Ok (Some (stored_task (task_id, r))).
Proof.
  intros H. unfold get_task_by_id. rewrite H.
  cbn [_create_tasks_list]. rewrite task_of_select_star. reflexivity.
Qed.



(** ** [get_days_until_due] *)



(** C1: on the store holding one task due on the current date,
    [get_days_until_due] with the id of that task, the day difference
    being 0, does not return a task carrying the difference: it raises
    [IndexError], the result row having no [description] column. *)
Theorem get_days_until_due_due_today :
  (exists t, get_task_by_id 1 due_today_store = Ok (Some t)
             /\ due_date t = PStr "2024-05-01")
  /\ get_days_until_due (fun _ => SInt 0) 1 due_today_store = Raise IndexError.
Proof.
  split.
  - eexists. split; vm_compute; reflexivity.
  - vm_compute. reflexivity.
Qed.

(** ** [edit_task] with nothing to change *)

(** C6: [edit_task] with an empty field set builds no statement, raises
    nothing and leaves the store as it was, whatever the id. *)
Theorem edit_task_empty_fields task_id db :
  edit_task_statement task_id [] = None
  /\ edit_task task_id [] db = (Ok (), db).
Proof. split; reflexivity. Qed.

(** A field set holding only [id] is emptied by the [pop]. *)
Lemma edit_task_only_id task_id v db :
  edit_task task_id [("id", v)] db = (Ok (), db).
Proof. reflexivity. Qed.

(** ** The [update] statement *)




(** What a successful [update] has done. *)
Lemma exec_update_Ok st db db' :
  exec_update st db = Ok db' →
  db' = db
  ∨ ∃ r cs rowid row,
      tasks db !! where_id st = Some r
      ∧ resolve_all (set_clause st) = Ok cs
      ∧ apply_sets (SInt (where_id st), r) cs = (SInt rowid, row)
      ∧ null_assigned cs row = false
      ∧ (rowid = where_id st ∨ tasks db !! rowid = None)
      ∧ db' = mkDB (<[rowid := row]> (delete (where_id st) (tasks db)))
                   (sqlite_sequence db).
Proof.
  unfold exec_update.
  destruct (resolve_all (set_clause st)) as [cs|] eqn:Hcs; [|done]. cbn.
  destruct (tasks db !! where_id st) as [r|] eqn:Hr; [|intros [= <-]; by left].
  destruct (apply_sets (SInt (where_id st), r) cs) as [v row] eqn:Hnew.
  cbn [fst snd]. destruct v as [|rowid| |]; try done.
  destruct (null_assigned cs row) eqn:Hnull; [done|].
  destruct (bool_decide (rowid ≠ where_id st)
            && bool_decide (is_Some (tasks db !! rowid))) eqn:Hu; [done|].
  intros [= <-]. right. exists r, cs, rowid, row. repeat split; try done.
  apply andb_false_iff in Hu as [Hu|Hu].
  - left. apply bool_decide_eq_false in Hu.
    destruct (decide (rowid = where_id st)); [done|]. by destruct Hu.
  - right. apply bool_decide_eq_false in Hu.
    by apply eq_None_not_Some.
Qed.

Lemma resolve_is_hidden : resolve_column "is_hidden" = Some Cis_hidden.
Proof. vm_compute. reflexivity. Qed.

Lemma remove_task_stored task_id db r :
  tasks db !! task_id = Some r →
  remove_task task_id db
  = (Ok (), mkDB (<[task_id := set_col Cis_hidden (SInt 1) r]> (tasks db))
                 (sqlite_sequence db)).
Proof.
  intros Hr. unfold remove_task, exec_update, remove_task_statement.
  cbn [set_clause where_id resolve_all]. rewrite resolve_is_hidden. cbn.
  rewrite Hr. cbn.
  rewrite bool_decide_eq_false_2 by (intros H; by apply H). cbn.
  by rewrite insert_delete_eq.
Qed.

(** ** Ids that are not in the store *)



(** ** Soft deletion *)

Lemma stored_task_hidden i r :
  stored_task (i, set_col Cis_hidden (SInt 1) r) = hidden (stored_task (i, r)).
Proof. reflexivity. Qed.

(** C4: for an id in the store, [remove_task] raises nothing; afterwards
    [get_task_by_id] returns the task it returned before with [is_hidden]
    true and the other fields as they were, and no task of that id is in
    the list of incomplete tasks or in the list of complete tasks. *)
Theorem remove_task_hides task_id db r :
  tasks db !! task_id = Some r →
  let db' := (remove_task task_id db).2 in
  (remove_task task_id db).1 = Ok ()
  ∧ get_task_by_id task_id db = Ok (Some (stored_task (task_id, r)))
  ∧ get_task_by_id task_id db'
    = Ok (Some (hidden (stored_task (task_id, r))))
  ∧ ∃ inc comp,
      get_all_incomplete_tasks db' = Ok inc
      ∧ get_all_complete_tasks db' = Ok comp
      ∧ ∀ t, id t = PInt task_id → (t ∉ inc) ∧ (t ∉ comp).
Proof.
  intros Hr db'. subst db'. rewrite (remove_task_stored _ _ r Hr). cbn [fst snd].
  split; [done|]. split; [by apply get_task_by_id_stored|]. split.
  - rewrite <- stored_task_hidden. apply get_task_by_id_stored.
    cbn. apply lookup_insert_eq.
  - listings. do 2 eexists. do 2 (split; [reflexivity|]).
    intros t Ht.
    assert (Hgone : ∀ i r0,
      tasks (mkDB (<[task_id := set_col Cis_hidden (SInt 1) r]> (tasks db))
                  (sqlite_sequence db)) !! i = Some r0 →
      t = stored_task (i, r0) → r_is_hidden r0 = SInt 1).
    { intros i r0 Hl ->. cbn in Ht. injection Ht as ->.
      cbn in Hl. rewrite lookup_insert_eq in Hl. by injection Hl as <-. }
    split; rewrite elem_of_selected; intros (i & r0 & Hl & Heq & Hc);
      unfold incomplete_cond, complete_cond in Hc;
      rewrite (Hgone i r0 Hl Heq) in Hc; by cbn in Hc.
Qed.

Lemma remove_task_hides_witness :
  (remove_task 1 two_task_store).1 = Ok ()
  ∧ (∃ t, get_task_by_id 1 (remove_task 1 two_task_store).2 = Ok (Some t)
          ∧ is_hidden t = FBool true ∧ name t = PStr "Water the plants")
  ∧ get_all_incomplete_tasks (remove_task 1 two_task_store).2
    = Ok [stored_task (2, mkRow (SText "File the report") (SText "quarterly")
                            (SInt 3) (SText "2024-04-30 09:00:00")
                            (SText "2099-01-01") (SInt 0) (SInt 0) SNull)].
Proof.
  assert (Hr : tasks two_task_store !! 1
               = Some (mkRow (SText "Water the plants") (SText "") (SInt 0)
                             (SText "2024-05-01 10:00:00") (SInt 0) (SInt 0)
                             (SInt 0) (SText "{}")))
    by (vm_compute; reflexivity).
  destruct (remove_task_hides 1 two_task_store _ Hr) as (H1 & _ & H3 & _).
  split; [exact H1|]. split.
  - eexists. split; [exact H3|]. split; reflexivity.
  - vm_compute. reflexivity.
Defined.

(** ** What [add_task] stores *)

Lemma resolve_add_task_columns a1 a2 a3 a4 a5 a6 a7 a8 :
  resolve_all [("name", a1); ("description", a2); ("priority", a3);
               ("created_at", a4); ("due_date", a5); ("is_complete", a6);
               ("is_hidden", a7); ("meta_data", a8)]
  = Ok [(Cname, a1); (Cdescription, a2); (Cpriority, a3); (Ccreated_at, a4);
        (Cdue_date, a5); (Cis_complete, a6); (Cis_hidden, a7); (Cmeta_data, a8)].
Proof. reflexivity. Qed.

(** [add_task] on a task whose flags convert: the row is inserted under
    the next rowid when it meets the NOT NULL constraints, and the call
    raises [IntegrityError] when it does not. *)
Lemma add_task_with_converted defaults clock T db c h :
  defaults Cid = SNull →
  py_int (is_complete T) = Ok c → py_int (is_hidden T) = Ok h →
  add_task_with defaults clock T db
  = if not_null_ok (new_row clock T c h)
    then (Ok (), mkDB (<[next_rowid db := new_row clock T c h]> (tasks db))
                      (Z.max (sqlite_sequence db) (next_rowid db)))
    else (Raise IntegrityError, db).
Proof.
  intros Hd Hc Hh. unfold add_task_with, add_task_params. rewrite Hc, Hh.
  cbn [mbind Result_bind mret Result_ret]. unfold exec_insert.
  rewrite resolve_add_task_columns. cbn [mbind Result_bind mret Result_ret].
  change (insert_value defaults _ Cid) with (defaults Cid). rewrite Hd.
  cbn [mbind Result_bind].
  change (mkRow _ _ _ _ _ _ _ _) with (new_row clock T c h).
  by destruct (not_null_ok (new_row clock T c h)).
Qed.

Lemma add_task_converted clock T db c h :
  py_int (is_complete T) = Ok c → py_int (is_hidden T) = Ok h →
  add_task clock T db
  = if not_null_ok (new_row clock T c h)
    then (Ok (), mkDB (<[next_rowid db := new_row clock T c h]> (tasks db))
                      (Z.max (sqlite_sequence db) (next_rowid db)))
    else (Raise IntegrityError, db).
Proof. by apply add_task_with_converted. Qed.

(** [add_task] on a task with a flag that is [None]. *)
Lemma add_task_with_flag_none defaults clock T db :
  is_complete T = FNone ∨ is_hidden T = FNone →
  add_task_with defaults clock T db = (Raise TypeError, db).
Proof.
  intros H. unfold add_task_with, add_task_params.
  destruct (is_complete T) eqn:Hc, (is_hidden T) eqn:Hh;
    try reflexivity; by destruct H.
Qed.

Lemma add_task_flag_none clock T db :
  is_complete T = FNone ∨ is_hidden T = FNone →
  add_task clock T db = (Raise TypeError, db).
Proof. apply add_task_with_flag_none. Qed.

(** ** The flag columns hold 0 or 1 *)













Lemma remove_task_as_edit task_id db :
  remove_task task_id db = edit_task task_id [("is_hidden", AInt 1)] db.
Proof. reflexivity. Qed.


(** ** Incomplete and complete tasks *)

Lemma decimal_zero d : decimal_eq_int d 0 = true → mant d = 0.
Proof.
  unfold decimal_eq_int, decimal_int.
  destruct (0 <=? dexp d) eqn:He.
  - intros H. apply Z.eqb_eq in H. apply Z.leb_le in He.
    assert (0 < 10 ^ dexp d) by (apply Z.pow_pos_nonneg; lia). nia.
  - apply Z.leb_gt in He.
    assert (Hp : 0 < 10 ^ (- dexp d)) by (apply Z.pow_pos_nonneg; lia).
    destruct (mant d mod 10 ^ (- dexp d) =? 0) eqn:Hm; [|done].
    intros H. apply Z.eqb_eq in H, Hm.
    rewrite (Z.div_mod (mant d) (10 ^ (- dexp d))) by lia. nia.
Qed.

Lemma sql_eq_int_unique v a b :
  sql_eq_int v a = Some true → sql_eq_int v b = Some true → a = b.
Proof.
  destruct v as [|z|d|s]; cbn; try done.
  - intros [= Ha] [= Hb]. apply Z.eqb_eq in Ha, Hb. congruence.
  - unfold decimal_eq_int. destruct (decimal_int d); [|done].
    intros [= Ha] [= Hb]. apply Z.eqb_eq in Ha, Hb. congruence.
Qed.

Lemma sql_eq_zero_falsy v : sql_eq_int v 0 = Some true → py_bool v = false.
Proof.
  destruct v as [|z|d|s]; cbn; try done.
  - intros [= H]. by rewrite H.
  - intros [= H]. apply decimal_zero in H. by rewrite H.
Qed.

Lemma sql_and_true a b : sql_and a b = Some true ↔ a = Some true ∧ b = Some true.
Proof.
  split; [|by intros [-> ->]]. by destruct a as [[]|], b as [[]|].
Qed.

Lemma bit_cases v : is_bit v = true → v = SInt 0 ∨ v = SInt 1.
Proof.
  destruct v as [|z| |]; cbn; try done. intros H.
  apply orb_true_iff in H as [H|H]; apply Z.eqb_eq in H; subst; auto.
Qed.

(** The two lists never share a task, and hold visible tasks only. *)
Lemma listed_tasks_apart db inc comp :
  get_all_incomplete_tasks db = Ok inc →
  get_all_complete_tasks db = Ok comp →
  (∀ t, ¬ (t ∈ inc ∧ t ∈ comp))
  ∧ (∀ t, t ∈ inc ∨ t ∈ comp → t ∈ all_tasks db ∧ visible t).
Proof.
  listings. intros [= <-] [= <-]. split.
  - intros t [Hi Hc]. apply elem_of_selected in Hi as (i & r & Hl & -> & Hi).
    apply elem_of_selected in Hc as (j & s & Hl' & Heq & Hc).
    pose proof (stored_task_inj _ _ Heq) as Hij. cbn in Hij. subst j.
    assert (s = r) as -> by congruence.
    apply sql_and_true in Hi as [_ Hi]. apply sql_and_true in Hc as [_ Hc].
    by pose proof (sql_eq_int_unique _ _ _ Hi Hc).
  - intros t Ht.
    assert (∃ i r, tasks db !! i = Some r ∧ t = stored_task (i, r)
                   ∧ sql_eq_int (r_is_hidden r) 0 = Some true)
      as (i & r & Hl & -> & Hh).
    { destruct Ht as [Ht|Ht];
        apply elem_of_selected in Ht as (i & r & Hl & -> & Hc);
        apply sql_and_true in Hc as [Hh _]; eauto. }
    split; [apply elem_of_all_tasks; eauto|].
    unfold visible. cbn. by rewrite (sql_eq_zero_falsy _ Hh).
Qed.




(** That store has a task in each list. *)
Example one_done_store_lists :
  (length <$> get_all_incomplete_tasks one_done_store) = Ok 1%nat
  ∧ (length <$> get_all_complete_tasks one_done_store) = Ok 1%nat.
Proof. split; vm_compute; reflexivity. Qed.

(** A flag column given another number: the task is visible and in
    neither list. *)
Example untyped_flag_in_no_list :
  let db := (edit_task 1 [("is_complete", AInt 2)] one_task_store).2 in
  get_all_incomplete_tasks db = Ok []
  ∧ get_all_complete_tasks db = Ok []
  ∧ (is_hidden <$> all_tasks db) = [FBool false].
Proof. repeat split; vm_compute; reflexivity. Qed.

(** ** Dates are not numbers *)

Lemma digit_not_space c : is_digit c = true → is_space c = false.
Proof.
  destruct c as [[] [] [] [] [] [] [] []]; try discriminate; reflexivity.
Qed.

Lemma digit_not_sign c r : is_digit c = true → take_sign (c :: r) = (false, c :: r).
Proof.
  destruct c as [[] [] [] [] [] [] [] []]; try discriminate; reflexivity.
Qed.

Lemma take_digits_digit c r acc n :
  is_digit c = true →
  ∃ d, take_digits (c :: r) acc n = take_digits r (acc * 10 + d) (n + 1).
Proof.
  unfold is_digit. cbn [take_digits].
  destruct (Zdigit c) as [d|]; [|done]. by exists d.
Qed.

Lemma take_digits_dash r acc n :
  take_digits ("-"%char :: r) acc n = (acc, n, "-"%char :: r).
Proof. reflexivity. Qed.

(** A date [YYYY-MM-DD] is no number to SQLite: the column of NUMERIC
    affinity keeps it as the text it is. *)
Lemma iso_date_not_numeric s : is_iso_date s = true → numeric_literal s = None.
Proof.
  unfold is_iso_date, numeric_literal.
  destruct (list_ascii_of_string s)
    as [|y1 [|y2 [|y3 [|y4 [|s1 [|m1 [|m2 [|s2 [|d1 [|d2 [|]]]]]]]]]]];
    try discriminate.
  intros H. repeat (apply andb_true_iff in H as [H ?]).
  assert (s1 = "-"%char) as -> by by apply Ascii.eqb_eq.
  cbn [skip_spaces]. rewrite (digit_not_space y1) by done.
  rewrite (digit_not_sign y1) by done.
  destruct (take_digits_digit y1 (y2 :: y3 :: y4 :: "-"%char :: m1 :: m2 :: s2 :: d1 :: [d2]) 0 0)
    as [v1 ->]; [done|].
  destruct (take_digits_digit y2 (y3 :: y4 :: "-"%char :: m1 :: m2 :: s2 :: d1 :: [d2]) (0 * 10 + v1) (0 + 1))
    as [v2 ->]; [done|].
  destruct (take_digits_digit y3 (y4 :: "-"%char :: m1 :: m2 :: s2 :: d1 :: [d2]) ((0 * 10 + v1) * 10 + v2) (0 + 1 + 1))
    as [v3 ->]; [done|].
  destruct (take_digits_digit y4 ("-"%char :: m1 :: m2 :: s2 :: d1 :: [d2]) (((0 * 10 + v1) * 10 + v2) * 10 + v3) (0 + 1 + 1 + 1))
    as [v4 ->]; [done|].
  rewrite take_digits_dash. reflexivity.
Qed.

Lemma iso_date_stored s :
  is_iso_date s = true → column_value AffNumeric (AStr s) = SText s.
Proof. intros H. cbn. by rewrite iso_date_not_numeric. Qed.

(** ** Tasks without a due date *)



(** ** The id of a task under [edit_task] *)




(** C7: on the store holding the one task of id 1, [edit_task] with the
    field set [ID=5] raises nothing and changes the id of the task: no
    task has id 1 afterwards and the task has id 5.  Only the key [id]
    is popped; SQLite reads [ID] as the same column. *)
Theorem edit_task_ID_renumbers :
  task_ids one_task_store = [PInt 1]
  ∧ (edit_task 1 [("ID", AInt 5)] one_task_store).1 = Ok ()
  ∧ task_ids renumbered_store = [PInt 5]
  ∧ get_task_by_id 1 renumbered_store = Ok None
  ∧ get_task_by_id 5 renumbered_store
    = Ok (Some (stored_task (5, new_row sample_clock undated_task 0 0))).
Proof. repeat split; vm_compute; reflexivity. Qed.

(** The same through the rowid's other names. *)
Example edit_task_rowid_renumbers :
  task_ids (edit_task 1 [("rowid", AInt 5)] one_task_store).2 = [PInt 5].
Proof. vm_compute. reflexivity. Qed.

(** ** The rowid of a new row *)

Lemma max_rowid_bound (m : gmap Z StoredRow) :
  ∀ i r, m !! i = Some r →
    ∃ k, map_fold (fun k (_ : StoredRow) acc =>
                     Some (match acc with Some m => Z.max k m | None => k end))
                  None m = Some k ∧ i <= k.
Proof.
  apply (map_fold_weak_ind (fun acc m => ∀ i r, m !! i = Some r →
                              ∃ k, acc = Some k ∧ i <= k)).
  - intros i r H. by rewrite lookup_empty in H.
  - intros j x m' acc Hj IH i r Hl.
    apply lookup_insert_Some in Hl as [[<- _]|[_ Hl]].
    + destruct acc; eexists; split; [done|lia|done|lia].
    + destruct (IH i r Hl) as (k & -> & Hk). eexists. split; [done|lia].
Qed.

(** The rowid [add_task] gives a row is the rowid of no row. *)
Lemma next_rowid_fresh db : tasks db !! next_rowid db = None.
Proof.
  destruct (tasks db !! next_rowid db) as [r|] eqn:H; [|done].
  destruct (max_rowid_bound _ _ _ H) as (k & Hk & Hle).
  unfold next_rowid, max_rowid in Hle. rewrite Hk in Hle. lia.
Qed.

(** [add_task] leaves the rows of the store as they are. *)
Lemma add_task_keeps_rows clock T db i r :
  tasks db !! i = Some r → tasks (add_task clock T db).2 !! i = Some r.
Proof.
  intros Hl.
  destruct (py_int (is_complete T)) as [c|e] eqn:Ec;
    [|rewrite add_task_flag_none; [done|left; by destruct (is_complete T)]].
  destruct (py_int (is_hidden T)) as [h|e] eqn:Eh;
    [|rewrite add_task_flag_none; [done|right; by destruct (is_hidden T)]].
  rewrite (add_task_converted _ _ _ c h Ec Eh).
  destruct (not_null_ok _); [|done]. cbn.
  rewrite lookup_insert_ne; [done|]. intros Heq.
  pose proof (next_rowid_fresh db) as Hf. rewrite Heq in Hf. congruence.
Qed.

(** ** [add_task] without a due date *)



(** ** Reading back a created task *)





(** The sentinel is read back as the integer 0. *)
Example sentinel_read_back :
  get_task_by_id 1 one_task_store
  = Ok (Some (mkTask (PInt 1) (PStr "Water the plants") (PStr "") (PInt 0)
                     (PStr "2024-05-01 10:00:00") (PInt 0)
                     (FBool false) (FBool false) (PStr "{}"))).
Proof. vm_compute. reflexivity. Qed.

(** ** Created tasks and the list of undated tasks *)

(** X10: A task created with the sentinel "0" is in the list of undated
    tasks; a task created with a date [YYYY-MM-DD] is not. *)
Lemma created_task_undue clock T db s :
  due_date T = AStr s → s = "0" ∨ is_iso_date s = true →
  (add_task clock T db).1 = Ok () →
  ∃ t l,
    get_task_by_id (next_rowid db) (add_task clock T db).2 = Ok (Some t)
    ∧ get_all_undue_tasks (add_task clock T db).2 = Ok l
    ∧ (t ∈ l ↔ s = "0").
Proof.
  intros Hd Hs Hok.
  destruct (py_int (is_complete T)) as [c|e] eqn:Ec;
    [|rewrite add_task_flag_none in Hok; [done|left; by destruct (is_complete T)]].
  destruct (py_int (is_hidden T)) as [h|e] eqn:Eh;
    [|rewrite add_task_flag_none in Hok; [done|right; by destruct (is_hidden T)]].
  rewrite (add_task_converted _ _ _ c h Ec Eh) in Hok |- *.
  destruct (not_null_ok _); [|done]. cbn [snd].
  listings.
  do 2 eexists. split; [|split; [reflexivity|]].
  { apply get_task_by_id_stored. cbn. apply lookup_insert_eq. }
  rewrite elem_of_selected. cbn [tasks].
  assert (Hrow : undue_cond (new_row clock T c h) = Some true ↔ s = "0").
  { unfold undue_cond, new_row. cbn [r_due_date]. rewrite Hd.
    destruct Hs as [->|Hs]; [done|].
    rewrite (iso_date_stored _ Hs). cbn. split; [done|].
    intros ->. by vm_compute in Hs. }
  split.
  - intros (i & r & Hl & Heq & Hc). apply stored_task_inj in Heq.
    cbn in Heq. subst i. rewrite lookup_insert_eq in Hl.
    injection Hl as <-. by apply Hrow.
  - intros H0. exists (next_rowid db), (new_row clock T c h).
    rewrite lookup_insert_eq. repeat split. by apply Hrow.
Qed.

(** ** The scenario of the specification *)

(** Task A has priority 0 and no due date; task B has priority 3 and the
    due date 2099-01-01 and is then marked complete and hidden.  The
    incomplete tasks are A alone, no task is listed as complete, and the
    undated tasks are A alone. *)
Example scenario_two_tasks :
  let a := mkTask ANone (AStr "A") (AStr "") (AInt 0) ANone (AStr "0")
                  (FBool false) (FBool false) (AStr "{}") in
  let b := mkTask ANone (AStr "B") (AStr "") (AInt 3) ANone (AStr "2099-01-01")
                  (FBool false) (FBool false) (AStr "{}") in
  let db1 := (add_task sample_clock a _init_db).2 in
  let db2 := (add_task sample_clock b db1).2 in
  let db3 := (edit_task 2 [("is_complete", ABool true)] db2).2 in
  let db4 := (remove_task 2 db3).2 in
  let a_read := mkTask (PInt 1) (PStr "A") (PStr "") (PInt 0)
                       (PStr "2024-05-01 10:00:00") (PInt 0)
                       (FBool false) (FBool false) (PStr "{}") in
  get_all_incomplete_tasks db4 = Ok [a_read]
  ∧ get_all_complete_tasks db4 = Ok []
  ∧ get_all_undue_tasks db4 = Ok [a_read]
  ∧ get_all_complete_tasks db3 = Ok [stored_task
       (2, mkRow (SText "B") (SText "") (SInt 3) (SText "2024-05-01 10:00:00")
                 (SText "2099-01-01") (SInt 1) (SInt 0) (SText "{}"))].
Proof. repeat split; vm_compute; reflexivity. Qed.

(** * Further properties of the store *)

(** ** Building tasks from rows *)







(** X3: Every task of a listing is the task [get_task_by_id] returns for its
    id, and every task [get_task_by_id] returns is a task of the store. *)
Theorem listed_task_by_id db :
  (∀ l t, get_all_incomplete_tasks db = Ok l
          ∨ get_all_complete_tasks db = Ok l
          ∨ get_all_undue_tasks db = Ok l →
          t ∈ l →
          ∃ i, id t = PInt i ∧ get_task_by_id i db = Ok (Some t))
  ∧ (∀ i t, get_task_by_id i db = Ok (Some t) →
            id t = PInt i ∧ t ∈ all_tasks db).
Proof.
  split.
  - intros l t Hl Ht.
    assert (∃ cond, l = stored_task <$>
              filter (fun p => where_true (cond p.2) = true) (table_scan db))
      as [cond ->].
    { revert Hl. listings. intros [[= <-]|[[= <-]|[= <-]]]; by eexists. }
    apply elem_of_selected in Ht as (i & r & Hr & -> & _).
    exists i. split; [done|]. by apply get_task_by_id_stored.
  - intros i t. unfold get_task_by_id.
    destruct (tasks db !! i) as [r|] eqn:Hr; [|done].
    cbn [_create_tasks_list]. rewrite task_of_select_star. cbn.
    intros [= <-]. split; [done|]. apply elem_of_all_tasks. eauto.
Qed.

Lemma listed_task_by_id_witness :
  ∃ t, get_task_by_id 2 two_task_store = Ok (Some t) ∧ id t = PInt 2
       ∧ t ∈ all_tasks two_task_store.
Proof.
  destruct (listed_task_by_id two_task_store) as [_ H].
  eexists. split; [vm_compute; reflexivity|].
  eapply H. vm_compute. reflexivity.
Defined.

(** ** What [edit_task] refuses *)





Lemma edit_task_one_field task_id k c a r db :
  tasks db !! task_id = Some r → resolve_column k = Some c → c ≠ Cid →
  edit_task task_id [(k, a)] db
  = let v := column_value (column_affinity c) a in
    if column_not_null c && is_null v then (Raise IntegrityError, db)
    else (Ok (), mkDB (<[task_id := set_col c v r]> (tasks db))
                      (sqlite_sequence db)).
Proof.
  intros Hr Hk Hc.
  assert (Hne : k ≠ "id") by (intros ->; vm_compute in Hk; congruence).
  unfold edit_task, edit_task_statement, pop_id.
  rewrite filter_cons_True by done. rewrite filter_nil.
  unfold exec_update. cbn [set_clause where_id resolve_all]. rewrite Hk.
  cbn [mbind Result_bind mret Result_ret]. rewrite Hr.
  unfold apply_sets. cbn [fold_left]. unfold apply_set. cbn [fst snd].
  assert (Hnull : ∀ v, null_assigned [(c, a)] (set_col c v r)
                       = column_not_null c && is_null v).
  { intros v. unfold null_assigned. cbn [existsb fst]. rewrite orb_false_r.
    by destruct c. }
  destruct c; try done; cbn [fst snd]; rewrite Hnull;
    (destruct (_ && _); [done|]);
    rewrite bool_decide_eq_false_2 by (intros H; by apply H);
    cbn [andb with_connection]; by rewrite insert_delete_eq.
Qed.

(** X5: [edit_task] giving [None] to a column declared [not null], for the id
    of a task of the store, raises [IntegrityError] and leaves the store
    as it was; giving [None] to [meta_data], the one column that may be
    NULL, succeeds. *)
Theorem edit_task_none task_id k c r db :
  tasks db !! task_id = Some r → resolve_column k = Some c → c ≠ Cid →
  edit_task task_id [(k, ANone)] db
  = if column_not_null c then (Raise IntegrityError, db)
    else (Ok (), mkDB (<[task_id := set_col c SNull r]> (tasks db))
                      (sqlite_sequence db)).
Proof.
  intros Hr Hk Hc. rewrite (edit_task_one_field _ _ c _ r) by done.
  cbn. by destruct (column_not_null c).
Qed.

Lemma edit_task_none_witness :
  edit_task 1 [("name", ANone)] two_task_store
  = (Raise IntegrityError, two_task_store)
  ∧ (edit_task 1 [("meta_data", ANone)] two_task_store).1 = Ok ().
Proof.
  assert (Hr : tasks two_task_store !! 1
               = Some (new_row sample_clock undated_task 0 0))
    by (vm_compute; reflexivity).
  split.
  - rewrite (edit_task_none 1 "name" Cname _ two_task_store Hr);
      [reflexivity|reflexivity|discriminate].
  - rewrite (edit_task_none 1 "meta_data" Cmeta_data _ two_task_store Hr);
      [reflexivity|reflexivity|discriminate].
Defined.

(** X6: [edit_task] cannot give a task the id of another task: the field
    [ID=j], [j] being the id of another task of the store, raises
    [IntegrityError] and leaves the store as it was. *)
Theorem edit_task_id_in_use i j r r' db :
  tasks db !! i = Some r → tasks db !! j = Some r' → i ≠ j →
  edit_task i [("ID", AInt j)] db = (Raise IntegrityError, db).
Proof.
  intros Hi Hj Hne. unfold edit_task, edit_task_statement, pop_id.
  rewrite filter_cons_True by done. rewrite filter_nil.
  unfold exec_update. cbn [set_clause where_id resolve_all].
  change (resolve_column "ID") with (Some Cid).
  cbn [mbind Result_bind mret Result_ret]. rewrite Hi.
  unfold apply_sets. cbn [fold_left]. unfold apply_set. cbn.
  rewrite bool_decide_eq_true_2 by done.
  rewrite bool_decide_eq_true_2 by (by rewrite Hj). done.
Qed.

Lemma edit_task_id_in_use_witness :
  edit_task 1 [("ID", AInt 2)] two_task_store
  = (Raise IntegrityError, two_task_store).
Proof.
  apply (edit_task_id_in_use 1 2 (new_row sample_clock undated_task 0 0)
           (new_row sample_clock dated_task 0 0));
    [vm_compute; reflexivity|vm_compute; reflexivity|discriminate].
Defined.

(** ** What [add_task] accepts *)





(** ** The id [add_task] assigns *)






(** ** Completing, reopening, hiding and restoring a task *)

Lemma resolve_is_complete : resolve_column "is_complete" = Some Cis_complete.
Proof. vm_compute. reflexivity. Qed.

Lemma edit_task_flag task_id k c (b : bool) r db :
  tasks db !! task_id = Some r → resolve_column k = Some c →
  is_flag_column c = true →
  edit_task task_id [(k, AInt (if b then 1 else 0))] db
  = (Ok (), mkDB (<[task_id := set_col c (SInt (if b then 1 else 0)) r]> (tasks db))
                 (sqlite_sequence db)).
Proof.
  intros Hr Hk Hc. rewrite (edit_task_one_field _ _ c _ r);
    [|done|done|by destruct c].
  by destruct c.
Qed.

Lemma selected_after_insert cond db i r seq t :
  t ∈ stored_task <$>
        filter (fun p => where_true (cond p.2) = true)
               (table_scan (mkDB (<[i := r]> (tasks db)) seq))
  ↔ (t = stored_task (i, r) ∧ cond r = Some true)
    ∨ (∃ j s, j ≠ i ∧ tasks db !! j = Some s ∧ t = stored_task (j, s)
              ∧ cond s = Some true).
Proof.
  rewrite elem_of_selected. cbn [tasks]. split.
  - intros (j & s & Hl & -> & Hc).
    apply lookup_insert_Some in Hl as [[<- <-]|[Hne Hl]]; [by left|].
    right. exists j, s. eauto.
  - intros [[-> Hc]|(j & s & Hne & Hl & -> & Hc)].
    + exists i, r. by rewrite lookup_insert_eq.
    + exists j, s. by rewrite lookup_insert_ne.
Qed.

(** On a visible task [edit_task] with [is_complete=1] puts the task in
    the list of complete tasks and takes it out of the list of incomplete
    tasks, and with [is_complete=0] the other way round; the other tasks
    stay in the lists they were in. *)
Theorem toggle_complete_moves task_id (b : bool) r db :
  tasks db !! task_id = Some r → sql_eq_int (r_is_hidden r) 0 = Some true →
  let db' := (edit_task task_id [("is_complete", AInt (if b then 1 else 0))] db).2 in
  let t' := stored_task (task_id, set_col Cis_complete (SInt (if b then 1 else 0)) r) in
  ∃ inc comp inc' comp',
    get_all_incomplete_tasks db = Ok inc
    ∧ get_all_complete_tasks db = Ok comp
    ∧ get_all_incomplete_tasks db' = Ok inc'
    ∧ get_all_complete_tasks db' = Ok comp'
    ∧ (if b then t' ∈ comp' ∧ t' ∉ inc' else t' ∈ inc' ∧ t' ∉ comp')
    ∧ (∀ t, id t ≠ PInt task_id →
            (t ∈ inc' ↔ t ∈ inc) ∧ (t ∈ comp' ↔ t ∈ comp)).
Proof.
  intros Hr Hh db' t'. subst db' t'.
  rewrite (edit_task_flag _ _ Cis_complete b r db Hr resolve_is_complete) by done.
  cbn [snd]. listings. do 4 eexists. do 4 (split; [reflexivity|]).
  split.
  - assert (Hin : ∀ cond seq r',
      stored_task (task_id, r') ∈ stored_task <$>
        filter (fun p => where_true (cond p.2) = true)
               (table_scan (mkDB (<[task_id := r']> (tasks db)) seq))
      ↔ cond r' = Some true).
    { intros cond seq r'. rewrite selected_after_insert. split; [|by left].
      intros [[_ ?]|(j & s & Hne & _ & Heq & _)]; [done|].
      apply stored_task_inj in Heq. cbn in Heq. congruence. }
    destruct b; (split; [apply Hin|intros Hx; apply Hin in Hx]);
      unfold incomplete_cond, complete_cond in *;
      cbn [set_col r_is_hidden r_is_complete] in *;
      rewrite ?Hh in *; by cbn in *.
  - intros t Ht. rewrite !selected_after_insert, !elem_of_selected.
    split; (split;
      [intros [[-> _]|(j & s & _ & ? & ? & ?)]; [by cbn in Ht|eauto]
      |intros (j & s & Hl & -> & Hc); right; exists j, s;
       repeat split; try done; intros ->; by cbn in Ht]).
Qed.

Lemma toggle_complete_moves_witness :
  ∃ inc' comp',
    get_all_incomplete_tasks one_done_store = Ok inc'
    ∧ get_all_complete_tasks one_done_store = Ok comp'
    ∧ stored_task (1, set_col Cis_complete (SInt 1)
                         (new_row sample_clock undated_task 0 0)) ∈ comp'
    ∧ stored_task (1, set_col Cis_complete (SInt 1)
                         (new_row sample_clock undated_task 0 0)) ∉ inc'.
Proof.
  assert (Hr : tasks two_task_store !! 1
               = Some (new_row sample_clock undated_task 0 0))
    by (vm_compute; reflexivity).
  destruct (toggle_complete_moves 1 true _ two_task_store Hr eq_refl)
    as (inc & comp & inc' & comp' & _ & _ & H3 & H4 & [H5 H6] & _).
  exists inc', comp'. split; [exact H3|]. split; [exact H4|].
  split; [exact H5|exact H6].
Defined.

Lemma set_col_same c r :
  c ≠ Cid → set_col c (get_col c 0 r) r = r.
Proof. by destruct c, r. Qed.

Lemma set_col_twice c v w r : set_col c v (set_col c w r) = set_col c v r.
Proof. by destruct c. Qed.

Lemma store_insert_same db i r :
  tasks db !! i = Some r →
  mkDB (<[i := r]> (tasks db)) (sqlite_sequence db) = db.
Proof. intros H. destruct db as [m s]. cbn in *. by rewrite insert_id. Qed.

(** Completing a task and reopening it, or reopening and completing it,
    by [edit_task] with [is_complete] as [action_toggle_complete] gives
    it, leaves the store exactly as it was. *)
Theorem toggle_complete_twice task_id (b : bool) r db :
  tasks db !! task_id = Some r →
  r_is_complete r = SInt (if b then 1 else 0) →
  let db1 := (edit_task task_id
                [("is_complete", AInt (if negb b then 1 else 0))] db).2 in
  (edit_task task_id [("is_complete", AInt (if negb b then 1 else 0))] db).1
  = Ok ()
  ∧ edit_task task_id [("is_complete", AInt (if b then 1 else 0))] db1
    = (Ok (), db).
Proof.
  intros Hr Hc db1. subst db1.
  rewrite (edit_task_flag _ _ Cis_complete (negb b) r db Hr resolve_is_complete)
    by done.
  cbn [fst snd]. split; [done|].
  rewrite (edit_task_flag _ _ Cis_complete b
             (set_col Cis_complete (SInt (if negb b then 1 else 0)) r));
    [|cbn; apply lookup_insert_eq|apply resolve_is_complete|done].
  cbn [tasks sqlite_sequence]. rewrite insert_insert_eq, set_col_twice.
  rewrite <- Hc. change (r_is_complete r) with (get_col Cis_complete 0 r).
  rewrite set_col_same by done. by rewrite store_insert_same.
Qed.

Lemma toggle_complete_twice_witness :
  edit_task 1 [("is_complete", AInt 0)]
    (edit_task 1 [("is_complete", AInt 1)] two_task_store).2
  = (Ok (), two_task_store).
Proof.
  assert (Hr : tasks two_task_store !! 1
               = Some (new_row sample_clock undated_task 0 0))
    by (vm_compute; reflexivity).
  destruct (toggle_complete_twice 1 false _ two_task_store Hr eq_refl)
    as [_ H].
  exact H.
Defined.


(** [add_task] only adds to the ids of the store. *)
Lemma add_task_keeps_ids clock T db :
  dom (tasks db) ⊆ dom (tasks (add_task clock T db).2).
Proof.
  intros i Hi. apply elem_of_dom in Hi as [r Hr]. apply elem_of_dom.
  exists r. by apply add_task_keeps_rows.
Qed.

(** X12: [edit_task] with [is_hidden=False] undoes [remove_task]: on a task
    that was visible the two leave the store exactly as it was. *)
Theorem remove_task_undone task_id r db :
  tasks db !! task_id = Some r → r_is_hidden r = SInt 0 →
  edit_task task_id [("is_hidden", ABool false)] (remove_task task_id db).2
  = (Ok (), db).
Proof.
  intros Hr Hh. rewrite (remove_task_stored _ _ r Hr). cbn [snd].
  rewrite (edit_task_one_field _ _ Cis_hidden _
             (set_col Cis_hidden (SInt 1) r));
    [|cbn; apply lookup_insert_eq|apply resolve_is_hidden|done].
  cbn [column_affinity column_value column_not_null is_null andb
       tasks sqlite_sequence].
  rewrite insert_insert_eq, set_col_twice. rewrite <- Hh.
  change (r_is_hidden r) with (get_col Cis_hidden 0 r).
  rewrite set_col_same by done. by rewrite store_insert_same.
Qed.

Lemma remove_task_undone_witness :
  edit_task 2 [("is_hidden", ABool false)] (remove_task 2 two_task_store).2
  = (Ok (), two_task_store).
Proof.
  apply (remove_task_undone 2 (new_row sample_clock dated_task 0 0));
    [vm_compute; reflexivity|reflexivity].
Defined.

(** X13: Hiding a task does not take it out of the list of undated tasks: a
    task of the store is in that list before [remove_task] exactly when
    the task as hidden is in it afterwards. *)
Theorem remove_task_keeps_undue task_id r db :
  tasks db !! task_id = Some r →
  ∃ l l',
    get_all_undue_tasks db = Ok l
    ∧ get_all_undue_tasks (remove_task task_id db).2 = Ok l'
    ∧ (stored_task (task_id, r) ∈ l
       ↔ hidden (stored_task (task_id, r)) ∈ l').
Proof.
  intros Hr. rewrite (remove_task_stored _ _ r Hr). cbn [snd].
  listings. do 2 eexists. do 2 (split; [reflexivity|]).
  rewrite selected_after_insert, elem_of_selected, <- stored_task_hidden.
  unfold undue_cond. cbn [set_col r_due_date]. split.
  - intros (j & s & Hl & Heq & Hc). left. split; [done|].
    pose proof (stored_task_inj _ _ Heq) as Hj. cbn in Hj. subst j.
    by assert (s = r) as -> by congruence.
  - intros [[_ Hc]|(j & s & Hne & _ & Heq & _)].
    + exists task_id, r. eauto.
    + apply stored_task_inj in Heq. cbn in Heq. congruence.
Qed.

Lemma remove_task_keeps_undue_witness :
  ∃ l', get_all_undue_tasks (remove_task 1 two_task_store).2 = Ok l'
        ∧ hidden (stored_task (1, new_row sample_clock undated_task 0 0)) ∈ l'.
Proof.
  assert (Hr : tasks two_task_store !! 1
               = Some (new_row sample_clock undated_task 0 0))
    by (vm_compute; reflexivity).
  destruct (remove_task_keeps_undue 1 _ two_task_store Hr)
    as (l & l' & H1 & H2 & H3).
  exists l'. split; [exact H2|]. apply H3.
  vm_compute in H1. injection H1 as <-.
  apply list_elem_of_In. left. reflexivity.
Defined.

(** ** The order of a listing *)

#[local] Instance rowid_le_total : Total rowid_le.
Proof. intros x y. unfold rowid_le. lia. Qed.

#[local] Instance rowid_le_trans : Transitive rowid_le.
Proof. intros x y z. unfold rowid_le. lia. Qed.





(** ** Tasks made and changed through the form *)

Lemma numeric_value_filled d : is_null (numeric_value d) = false.
Proof. unfold numeric_value. by destruct (decimal_int d). Qed.

Lemma due_date_filled s : is_null (column_value AffNumeric (AStr s)) = false.
Proof.
  cbn. destruct (numeric_literal s); [apply numeric_value_filled|done].
Qed.

Lemma sql_eq_one_truthy v : sql_eq_int v 1 = Some true → py_bool v = true.
Proof.
  destruct v as [|z|d|s]; cbn; try done.
  - intros [= H]. apply Z.eqb_eq in H. by subst z.
  - intros [= H]. apply negb_true_iff, Z.eqb_neq. intros Hm.
    unfold decimal_eq_int, decimal_int in H. rewrite Hm in H.
    rewrite Z.mul_0_l, Zmod_0_l, Zdiv_0_l in H. cbn in H.
    by destruct (0 <=? dexp d).
Qed.


(** ** [action_toggle_complete] *)

Lemma toggle_fields_stored i r :
  toggle_fields (stored_task (i, r))
  = [("is_complete", AInt (if negb (py_bool (r_is_complete r)) then 1 else 0))].
Proof. reflexivity. Qed.

(** X18: [action_toggle_complete] on a task of the list shown: the
    [edit_task] it makes, with [is_complete=int(not task.is_complete)],
    succeeds; the task is read back with [is_complete] negated; a task
    taken from the list of incomplete tasks is afterwards in the list of
    complete tasks and no longer in the list of incomplete tasks, and a
    task taken from the list of complete tasks the other way round. *)
Theorem action_toggle_complete_moves db inc comp t i :
  get_all_incomplete_tasks db = Ok inc →
  get_all_complete_tasks db = Ok comp →
  id t = PInt i → t ∈ inc ∨ t ∈ comp →
  let db' := (edit_task i (toggle_fields t) db).2 in
  ∃ t' inc' comp',
    (edit_task i (toggle_fields t) db).1 = Ok ()
    ∧ get_task_by_id i db' = Ok (Some t')
    ∧ is_complete t' = FBool (negb (flag_truthy (is_complete t)))
    ∧ get_all_incomplete_tasks db' = Ok inc'
    ∧ get_all_complete_tasks db' = Ok comp'
    ∧ (t ∈ inc → t' ∈ comp' ∧ t' ∉ inc')
    ∧ (t ∈ comp → t' ∈ inc' ∧ t' ∉ comp').
Proof.
  intros Hinc Hcomp Hid Hin db'. subst db'.
  pose proof (listed_tasks_apart db inc comp Hinc Hcomp) as [Hapart _].
  revert Hinc Hcomp. listings. intros [= <-] [= <-].
  assert (∃ r (b : bool),
    tasks db !! i = Some r ∧ t = stored_task (i, r)
    ∧ sql_eq_int (r_is_hidden r) 0 = Some true
    ∧ negb (py_bool (r_is_complete r)) = b
    ∧ (if b then incomplete_cond r = Some true
       else complete_cond r = Some true)) as (r & b & Hr & -> & Hh & Hb & Hc).
  { destruct Hin as [Hin|Hin];
      apply elem_of_selected in Hin as (j & r & Hr & -> & Hc);
      cbn in Hid; injection Hid as ->;
      pose proof Hc as Hc'; apply sql_and_true in Hc' as [Hh Hk].
    - exists r, true. repeat split; try done.
      by rewrite (sql_eq_zero_falsy _ Hk).
    - exists r, false. repeat split; try done.
      by rewrite (sql_eq_one_truthy _ Hk). }
  rewrite toggle_fields_stored, Hb.
  destruct (toggle_complete_moves i b r db Hr Hh)
    as (inc0 & comp0 & inc' & comp' & _ & _ & Hi' & Hc' & Hmove & _).
  rewrite (edit_task_flag _ _ Cis_complete b r db Hr resolve_is_complete)
    in Hi', Hc' |- * by done.
  cbn [fst snd] in *.
  exists (stored_task (i, set_col Cis_complete (SInt (if b then 1 else 0)) r)),
         inc', comp'.
  split; [done|].
  split; [apply get_task_by_id_stored; cbn; apply lookup_insert_eq|].
  split; [cbn; rewrite <- Hb; by destruct (py_bool (r_is_complete r))|].
  split; [rewrite <- Hi'; by listings|].
  split; [rewrite <- Hc'; by listings|].
  assert (Hboth : ∀ x, x ∈ stored_task <$>
                     filter (fun p => where_true (incomplete_cond p.2) = true)
                            (table_scan db) →
                   x ∈ stored_task <$>
                     filter (fun p => where_true (complete_cond p.2) = true)
                            (table_scan db) → False)
    by (intros x ? ?; by apply (Hapart x)).
  assert (Hmem : ∀ cond, cond r = Some true →
    stored_task (i, r) ∈ stored_task <$>
      filter (fun p => where_true (cond p.2) = true) (table_scan db)).
  { intros cond Hcond. apply elem_of_selected. eauto. }
  destruct b; split; intros Ht; try done; exfalso.
  - apply (Hboth (stored_task (i, r))); [by apply Hmem|done].
  - apply (Hboth (stored_task (i, r))); [done|by apply Hmem].
Qed.

Lemma action_toggle_complete_moves_witness :
  ∃ t', get_task_by_id 1
          (edit_task 1 (toggle_fields
             (stored_task (1, new_row sample_clock undated_task 0 0)))
             two_task_store).2 = Ok (Some t')
        ∧ is_complete t' = FBool true.
Proof.
  destruct (action_toggle_complete_moves two_task_store
              [stored_task (1, new_row sample_clock undated_task 0 0);
               stored_task (2, new_row sample_clock dated_task 0 0)]
              [] (stored_task (1, new_row sample_clock undated_task 0 0)) 1)
    as (t' & inc' & comp' & _ & H2 & H3 & _);
    [vm_compute; reflexivity|vm_compute; reflexivity|reflexivity
    |left; apply list_elem_of_In; left; reflexivity|].
  exists t'. split; [exact H2|exact H3].
Defined.

(** X19: Toggling a task and then toggling the task read back leaves the
    store exactly as it was, when the [is_complete] column of the row
    holds 0 or 1. *)
Theorem action_toggle_complete_twice task_id r db :
  tasks db !! task_id = Some r → is_bit (r_is_complete r) = true →
  let t := stored_task (task_id, r) in
  let db1 := (edit_task task_id (toggle_fields t) db).2 in
  ∃ t1, get_task_by_id task_id db1 = Ok (Some t1)
        ∧ edit_task task_id (toggle_fields t1) db1 = (Ok (), db).
Proof.
  intros Hr Hbit t db1. subst t db1. rewrite toggle_fields_stored.
  set (b := py_bool (r_is_complete r)).
  assert (Hc : r_is_complete r = SInt (if b then 1 else 0)).
  { subst b. by apply bit_cases in Hbit as [->| ->]. }
  destruct (toggle_complete_twice task_id b r db Hr Hc) as [_ Hback].
  rewrite (edit_task_flag _ _ Cis_complete (negb b) r db Hr resolve_is_complete)
    in Hback |- * by done.
  cbn [snd] in *. eexists. split.
  { apply get_task_by_id_stored. cbn. apply lookup_insert_eq. }
  rewrite toggle_fields_stored. cbn [set_col r_is_complete].
  replace (negb (py_bool (SInt (if negb b then 1 else 0)))) with b
    by (by destruct b).
  exact Hback.
Qed.

Lemma action_toggle_complete_twice_witness :
  ∃ t1, get_task_by_id 1
          (edit_task 1 (toggle_fields
             (stored_task (1, new_row sample_clock undated_task 0 0)))
             two_task_store).2 = Ok (Some t1)
        ∧ edit_task 1 (toggle_fields t1)
            (edit_task 1 (toggle_fields
               (stored_task (1, new_row sample_clock undated_task 0 0)))
               two_task_store).2
          = (Ok (), two_task_store).
Proof.
  apply (action_toggle_complete_twice 1
           (new_row sample_clock undated_task 0 0) two_task_store);
    [vm_compute; reflexivity|reflexivity].
Defined.

(** ** Editing through the form *)

Lemma resolve_form_columns a1 a2 a3 a4 :
  resolve_all [("name", a1); ("description", a2); ("priority", a3);
               ("due_date", a4)]
  = Ok [(Cname, a1); (Cdescription, a2); (Cpriority, a3); (Cdue_date, a4)].
Proof. reflexivity. Qed.

(** X17: [action_edit_task] on a task of the store: the [edit_task] it makes
    with the four fields of the form succeeds; the task is read back
    with the name, description and priority of the form, with the due
    date as the column stores it, and with its id, [created_at], flags
    and [meta_data] as they were; every other task is read back as
    before. *)
Theorem edit_task_of_form task_id r n d p u db :
  tasks db !! task_id = Some r →
  let t := stored_task (task_id, r) in
  let db' := (edit_task task_id (fields_of_form n d p u) db).2 in
  (edit_task task_id (fields_of_form n d p u) db).1 = Ok ()
  ∧ get_task_by_id task_id db'
    = Ok (Some (mkTask (PInt task_id) (PStr n) (PStr d) (PInt p) (created_at t)
                       (py_of_sql (column_value AffNumeric (AStr u)))
                       (is_complete t) (is_hidden t) (meta_data t)))
  ∧ ∀ j, j ≠ task_id → get_task_by_id j db' = get_task_by_id j db.
Proof.
  intros Hr t db'. subst t db'.
  unfold edit_task, edit_task_statement, fields_of_form, pop_id.
  repeat rewrite filter_cons_True by done. rewrite filter_nil.
  unfold exec_update. cbn [set_clause where_id].
  rewrite resolve_form_columns. cbn [mbind Result_bind]. rewrite Hr.
  unfold apply_sets. cbn [fold_left]. unfold apply_set.
  cbn [fst snd column_affinity column_value set_col r_name r_description
       r_priority r_created_at r_due_date r_is_complete r_is_hidden
       r_meta_data].
  unfold null_assigned.
  cbn [existsb fst column_not_null get_col andb orb is_null r_name
       r_description r_priority r_due_date].
  change (match numeric_literal u with
          | Some d0 => numeric_value d0
          | None => SText u
          end) with (column_value AffNumeric (AStr u)).
  rewrite due_date_filled. cbn [orb].
  rewrite bool_decide_eq_false_2 by (intros H; by apply H).
  cbn [andb with_connection fst snd]. rewrite insert_delete_eq.
  split; [done|]. split.
  - erewrite get_task_by_id_stored; [|cbn; apply lookup_insert_eq]. done.
  - intros j Hj. unfold get_task_by_id. cbn [tasks].
    by rewrite lookup_insert_ne.
Qed.

Lemma edit_task_of_form_witness :
  (edit_task 1 (fields_of_form "Water the ferns" "twice" 2 "2024-06-01")
     two_task_store).1 = Ok ()
  ∧ get_task_by_id 1
      (edit_task 1 (fields_of_form "Water the ferns" "twice" 2 "2024-06-01")
         two_task_store).2
    = Ok (Some (mkTask (PInt 1) (PStr "Water the ferns") (PStr "twice") (PInt 2)
                       (PStr "2024-05-01 10:00:00") (PStr "2024-06-01")
                       (FBool false) (FBool false) (PStr "{}"))).
Proof.
  destruct (edit_task_of_form 1 (new_row sample_clock undated_task 0 0)
              "Water the ferns" "twice" 2 "2024-06-01" two_task_store)
    as (H1 & H2 & _); [vm_compute; reflexivity|].
  split; [exact H1|]. rewrite H2. vm_compute. reflexivity.
Defined.

(** ** The shape of a stored row *)

Lemma get_set_col c v r : c ≠ Cid → get_col c 0 (set_col c v r) = v.
Proof. by destruct c. Qed.

Lemma get_set_col_other c c' v r :
  c ≠ c' → get_col c 0 (set_col c' v r) = get_col c 0 r.
Proof. by destruct c, c'. Qed.

(** After a [set] clause a column holds the value it held, or a value
    the clause gave it. *)
Lemma apply_sets_value c cs : ∀ st,
  c ≠ Cid →
  get_col c 0 (apply_sets st cs).2 = get_col c 0 st.2
  ∨ ∃ a, (c, a) ∈ cs
         ∧ get_col c 0 (apply_sets st cs).2 = column_value (column_affinity c) a.
Proof.
  induction cs as [|[c' a] cs IH]; intros st Hc; [by left|].
  unfold apply_sets. cbn [fold_left]. fold (apply_sets (apply_set st (c', a)) cs).
  destruct (IH (apply_set st (c', a)) Hc) as [Heq|(a' & Hin & Heq)].
  - rewrite Heq. unfold apply_set. cbn [fst snd].
    destruct (decide (c = c')) as [<-|Hne].
    + right. exists a. split; [left|]. destruct c; try done.
    + left. destruct c'; try done; by apply get_set_col_other.
  - right. exists a'. split; [by right|done].
Qed.

Lemma null_assigned_false cs r c a :
  null_assigned cs r = false → (c, a) ∈ cs → column_not_null c = true →
  is_null (get_col c 0 r) = false.
Proof.
  unfold null_assigned. intros Hn Hin Hc.
  destruct (is_null (get_col c 0 r)) eqn:Hnull; [|done].
  assert (existsb (fun ca => column_not_null ca.1 && is_null (get_col ca.1 0 r))
                  cs = true); [|congruence].
  apply existsb_exists. exists (c, a). split; [by apply list_elem_of_In|].
  cbn. by rewrite Hc, Hnull.
Qed.

Lemma text_column_value a :
  is_text (column_value AffText a) || is_null (column_value AffText a) = true.
Proof. by destruct a as [|[]| |]. Qed.

Lemma text_not_null v : is_text v || is_null v = true → is_null v = false →
  is_text v = true.
Proof. by destruct v. Qed.

Lemma row_shaped_columns r :
  row_shaped r = true
  ↔ (∀ c, column_not_null c = true → is_null (get_col c 0 r) = false)
    ∧ (∀ c, column_affinity c = AffText →
            is_text (get_col c 0 r) || is_null (get_col c 0 r) = true).
Proof.
  unfold row_shaped. split.
  - intros H. repeat (apply andb_true_iff in H as [H ?]).
    split; intros c Hc; destruct c; try done; cbn;
      try (by apply negb_true_iff);
      try (match goal with
           | Ht : is_text ?v = true |- _ => by destruct v
           end);
      done.
  - intros [Hnn Htext].
    pose proof (Hnn Cname eq_refl). pose proof (Hnn Cdescription eq_refl).
    pose proof (Hnn Cpriority eq_refl). pose proof (Hnn Ccreated_at eq_refl).
    pose proof (Hnn Cdue_date eq_refl). pose proof (Hnn Cis_complete eq_refl).
    pose proof (Hnn Cis_hidden eq_refl).
    pose proof (Htext Cname eq_refl). pose proof (Htext Cdescription eq_refl).
    pose proof (Htext Ccreated_at eq_refl). pose proof (Htext Cmeta_data eq_refl).
    cbn in *.
    repeat (apply andb_true_iff; split);
      try (by apply negb_true_iff); try (by apply text_not_null); done.
Qed.

Lemma row_shaped_update st db db' :
  (∀ i r, tasks db !! i = Some r → row_shaped r = true) →
  exec_update st db = Ok db' →
  ∀ i r, tasks db' !! i = Some r → row_shaped r = true.
Proof.
  intros Hdb Hu.
  apply exec_update_Ok
    in Hu as [->|(r & cs & rowid & row & Hr & Hcs & Hn & Hnull & _ & ->)];
    [done|].
  intros i r'. cbn [tasks]. rewrite lookup_insert_Some.
  intros [[_ <-]|[_ Hl]];
    [|apply lookup_delete_Some in Hl as [_ Hl]; by apply (Hdb i)].
  apply row_shaped_columns. apply Hdb, row_shaped_columns in Hr as [Hnn Htext].
  assert (Hrow : row = (apply_sets (SInt (where_id st), r) cs).2)
    by by rewrite Hn.
  split; intros c Hc.
  - assert (c ≠ Cid) as Hid by (by destruct c).
    destruct (apply_sets_value c cs (SInt (where_id st), r) Hid)
      as [Heq|(a & Hin & Heq)]; rewrite <- Hrow in Heq.
    + rewrite Heq. by apply Hnn.
    + by apply (null_assigned_false cs row c a).
  - assert (c ≠ Cid) as Hid by (by destruct c).
    destruct (apply_sets_value c cs (SInt (where_id st), r) Hid)
      as [Heq|(a & Hin & Heq)]; rewrite <- Hrow in Heq; rewrite Heq.
    + by apply Htext.
    + rewrite Hc. apply text_column_value.
Qed.

Lemma row_shaped_edit task_id fields db :
  (∀ i r, tasks db !! i = Some r → row_shaped r = true) →
  ∀ i r, tasks (edit_task task_id fields db).2 !! i = Some r →
         row_shaped r = true.
Proof.
  intros Hdb. unfold edit_task.
  destruct (edit_task_statement task_id fields) as [st|]; [|done].
  destruct (exec_update st db) as [db'|e] eqn:Hu; [|done]. cbn.
  by apply (row_shaped_update st db).
Qed.

Lemma row_shaped_add clock T db :
  (∀ i r, tasks db !! i = Some r → row_shaped r = true) →
  ∀ i r, tasks (add_task clock T db).2 !! i = Some r → row_shaped r = true.
Proof.
  intros Hdb.
  destruct (py_int (is_complete T)) as [c|e] eqn:Ec;
    [|rewrite add_task_flag_none; [done|left; by destruct (is_complete T)]].
  destruct (py_int (is_hidden T)) as [h|e] eqn:Eh;
    [|rewrite add_task_flag_none; [done|right; by destruct (is_hidden T)]].
  rewrite (add_task_converted _ _ _ c h Ec Eh).
  destruct (not_null_ok _) eqn:Hnn; [|done]. cbn [snd tasks].
  intros i r. rewrite lookup_insert_Some. intros [[_ <-]|[_ Hl]];
    [|by apply (Hdb i)].
  apply row_shaped_columns. split.
  - intros col Hcol. unfold not_null_ok in Hnn.
    rewrite forallb_forall in Hnn.
    assert (Hin : In col all_columns) by (destruct col; cbn; tauto).
    specialize (Hnn col Hin). rewrite Hcol in Hnn. cbn in Hnn.
    by apply negb_true_iff.
  - intros col Hcol. destruct col; try done; apply text_column_value.
Qed.

Lemma store_state_shaped db :
  store_state db → ∀ i r, tasks db !! i = Some r → row_shaped r = true.
Proof.
  induction 1 as [|clock T db _ IH|task_id fields db _ IH|task_id db _ IH].
  - intros i r H. cbn in H. by rewrite lookup_empty in H.
  - by apply row_shaped_add.
  - by apply row_shaped_edit.
  - rewrite remove_task_as_edit. by apply row_shaped_edit.
Qed.

(** X15: In every state of the store, whatever [add_task] and [edit_task]
    were given, a task read from it has a [str] as [name], [description]
    and [created_at], a [str] or [None] as [meta_data], and never [None]
    as [priority] or [due_date]: a number given for a text column is
    stored as its text, and [None] is refused by the [not null] columns. *)
Theorem stored_tasks_shaped db t :
  store_state db → t ∈ all_tasks db →
  is_pystr (name t) = true ∧ is_pystr (description t) = true
  ∧ is_pystr (created_at t) = true
  ∧ is_pynone (priority t) = false ∧ is_pynone (due_date t) = false
  ∧ (is_pystr (meta_data t) || is_pynone (meta_data t) = true).
Proof.
  intros Hs Ht. apply elem_of_all_tasks in Ht as (i & r & Hr & ->).
  pose proof (store_state_shaped db Hs i r Hr) as H.
  unfold row_shaped in H. repeat (apply andb_true_iff in H as [H ?]).
  cbn [stored_task name description created_at priority due_date meta_data snd].
  destruct (r_name r), (r_description r), (r_created_at r); try done.
  destruct (r_priority r), (r_due_date r); try done;
    by destruct (r_meta_data r).
Qed.

Lemma stored_tasks_shaped_witness :
  let db := (edit_task 1 [("name", AInt 7); ("meta_data", ANone)]
               two_task_store).2 in
  ∃ t, get_task_by_id 1 db = Ok (Some t)
       ∧ name t = PStr "7" ∧ is_pystr (created_at t) = true.
Proof.
  intros db.
  assert (Hs : store_state db).
  { apply state_edit, state_add, state_add, state_init. }
  assert (Hr : tasks db !! 1
               = Some (mkRow (SText "7") (SText "") (SInt 0)
                             (SText "2024-05-01 10:00:00") (SInt 0) (SInt 0)
                             (SInt 0) SNull))
    by (vm_compute; reflexivity).
  eexists. split; [by apply get_task_by_id_stored|]. split; [reflexivity|].
  assert (Hin : stored_task (1, mkRow (SText "7") (SText "") (SInt 0)
                             (SText "2024-05-01 10:00:00") (SInt 0) (SInt 0)
                             (SInt 0) SNull) ∈ all_tasks db)
    by (apply elem_of_all_tasks; eauto).
  destruct (stored_tasks_shaped db _ Hs Hin) as (_ & _ & H3 & _).
  exact H3.
Defined.

(** * The due date on the screen *)





Lemma created_task_read clock T db :
  (add_task clock T db).1 = Ok () →
  ∃ t, get_task_by_id (next_rowid db) (add_task clock T db).2 = Ok (Some t)
       ∧ due_date t = py_of_sql (column_value AffNumeric (due_date T)).
Proof.
  intros Hok.
  destruct (py_int (is_complete T)) as [c|e] eqn:Ec;
    [|rewrite add_task_flag_none in Hok; [done|left; by destruct (is_complete T)]].
  destruct (py_int (is_hidden T)) as [h|e] eqn:Eh;
    [|rewrite add_task_flag_none in Hok; [done|right; by destruct (is_hidden T)]].
  rewrite (add_task_converted _ _ _ c h Ec Eh) in Hok |- *.
  destruct (not_null_ok _); [|done]. cbn [snd].
  eexists. split; [apply get_task_by_id_stored; cbn; apply lookup_insert_eq|].
  reflexivity.
Qed.

(** X20: A task created with the sentinel "0" as its due date, as the form
    gives it for a blank date, is read back with the integer 0, and the
    front end takes that for no due date just as it takes the text "0":
    [_due_markup] and [_due_plain] return their no-date texts without
    parsing anything, and the edit form starts with a blank date. *)
Theorem sentinel_on_screen strptime clock T db :
  due_date T = AStr "0" → (add_task clock T db).1 = Ok () →
  ∃ t, get_task_by_id (next_rowid db) (add_task clock T db).2 = Ok (Some t)
       ∧ due_date t = PInt 0
       ∧ _due_markup strptime (due_date t) = Ok "[dim]–[/dim]"
       ∧ _due_plain strptime (due_date t) = Ok "No due date"
       ∧ form_due_date (due_date t) = PStr ""
       ∧ _due_markup strptime (PStr "0") = Ok "[dim]–[/dim]"
       ∧ _due_plain strptime (PStr "0") = Ok "No due date".
Proof.
  intros Hd Hok. destruct (created_task_read clock T db Hok) as (t & Ht & Hdue).
  rewrite Hd in Hdue. exists t. rewrite Hdue. by repeat split.
Qed.

Lemma sentinel_on_screen_witness :
  ∃ t, get_task_by_id 1 one_task_store = Ok (Some t)
       ∧ _due_plain sample_strptime (due_date t) = Ok "No due date".
Proof.
  destruct (sentinel_on_screen sample_strptime sample_clock undated_task
              _init_db eq_refl eq_refl) as (t & H1 & _ & _ & H4 & _).
  exists t. split; [exact H1|exact H4].
Defined.



(** What the two functions print for a date, on the sample calendar. *)
Example due_texts_of_dates :
  _due_markup sample_strptime (PStr "2024-05-03") = Ok "May 03 (2d)"
  ∧ _due_plain sample_strptime (PStr "2024-05-03") = Ok "May 03, 2024  (+2d)"
  ∧ _due_markup sample_strptime (PStr "2024-04-30") = Ok "[red]Overdue (1d)[/red]"
  ∧ _due_plain sample_strptime (PStr "2024-04-30") = Ok "Overdue by 1 day(s)"
  ∧ _due_plain sample_strptime (PStr "tomorrow") = Ok "tomorrow".
Proof. repeat split; vm_compute; reflexivity. Qed.

(** * Witnesses of earlier lemmas *)


Lemma created_task_undue_witness :
  ∃ t l, get_task_by_id 2 two_task_store = Ok (Some t)
         ∧ get_all_undue_tasks two_task_store = Ok l
         ∧ t ∉ l.
Proof.
  destruct (created_task_undue sample_clock dated_task one_task_store
              "2099-01-01" eq_refl (or_intror eq_refl) eq_refl)
    as (t & l & H1 & H2 & H3).
  exists t, l. split; [exact H1|]. split; [exact H2|].
  intros Hin. apply H3 in Hin. discriminate Hin.
Defined.
